(** * The parallel bug hunter of [tools/bug_hunter.py]

    A shallow embedding of [BugHunterTool.run_impl] and of
    [ParallelBugHunter] ([start], [stop], [_monitor_loop],
    [_get_python_files], [_check_file]), and the properties of its
    verdict protocol and of its scan loop.

    Conventions of the embedding.
    - A Python [str] is a [string]; [str.lower] acts on the ASCII letters.
    - A Python [set] of paths is a [gset string]; the [dict] handed to
      [run_impl] is a [gmap string string].
    - What the collaborators answer during one pass of the loop (the walk
      of the workspace, [os.path.getsize], [open]/[read], the model
      client, the cancellation of the sleep) is a [world]; a run of the
      loop is a list of worlds, one for each time the loop head is reached.
    - Every call that leaves the class is written to a trace of [event]s,
      in program order. A computation is a result-or-exception paired with
      the events it emitted. *)

From Stdlib Require Import ZArith Ascii String Lia.
From stdpp Require Import base gmap strings list pretty.

Local Open Scope Z_scope.

(** ** Python string operations *)

Module Py.

(** [c.lower()] for one character: the letters A-Z move to a-z. *)
Definition lower_char (c : ascii) : ascii :=
  let n := nat_of_ascii c in
  if ((65 <=? n) && (n <=? 90))%nat then ascii_of_nat (n + 32) else c.

(** [s.lower()] *)
Fixpoint lower (s : string) : string :=
  match s with
  | EmptyString => EmptyString
  | String c s' => String (lower_char c) (lower s')
  end.

(** [s.startswith(prefix)] *)
Fixpoint startswith (s prefix : string) {struct prefix} : bool :=
  match prefix with
  | EmptyString => true
  | String p prefix' =>
      match s with
      | EmptyString => false
      | String c s' => if Ascii.eqb c p then startswith s' prefix' else false
      end
  end.

(** [sub in s] *)
Fixpoint contains (sub s : string) : bool :=
  startswith s sub ||
  match s with
  | EmptyString => false
  | String _ s' => contains sub s'
  end.

(** [s.endswith(suffix)] *)
Definition endswith (s suffix : string) : bool :=
  let n := String.length s in
  let k := String.length suffix in
  ((k <=? n)%nat && String.eqb (String.substring (n - k) k s) suffix).

(** [os.path.join(a, b)] of [posixpath]. *)
Definition join (a b : string) : string :=
  if startswith b "/" then b
  else if String.eqb a "" || endswith a "/" then a +:+ b
  else a +:+ "/" +:+ b.

(** [len(s)] *)
Definition len (s : string) : Z := Z.of_nat (String.length s).

Definition nl : string := String "010"%char EmptyString.
Definition dquote : string := String "034"%char EmptyString.

End Py.

(** ** Exceptions, events and computations *)

(** The two classes the handlers of the module tell apart: [Exception]
    (with its message, what [str(e)] gives) and [asyncio.CancelledError],
    which [except Exception] does not catch. *)
Inductive exn :=
| Exception (msg : string)
| CancelledError.

Inductive level := INFO | WARNING | ERROR.

Inductive event :=
| EvLog (lvl : level) (msg : string)
| EvGetSize (path : string)
| EvOpen (path : string)
| EvRunImpl (tool_input : gmap string string)
| EvGenerate (prompt : string)
| EvCallback (file_path report : string)
| EvSleep.

Inductive res (A : Type) :=
| Ok (a : A)
| Raise (e : exn).
Arguments Ok {A} a.
Arguments Raise {A} e.

(** A computation: how it ends, and the events it emitted on the way. *)
Definition M (A : Type) : Type := res A * list event.

Definition ret {A} (a : A) : M A := (Ok a, []).

Definition bind {A B} (m : M A) (k : A → M B) : M B :=
  match m with
  | (Ok a, t) => let '(r, t') := k a in (r, t ++ t')
  | (Raise e, t) => (Raise e, t)
  end.

#[global] Instance M_ret : MRet M := @ret.
#[global] Instance M_bind : MBind M := λ A B k m, bind m k.

Definition raise {A} (e : exn) : M A := (Raise e, []).

Definition emit (ev : event) : M unit := (Ok tt, [ev]).

(** [try: body  except Exception as e: handler(str(e))] *)
Definition try_except {A} (body : M A) (handler : string → M A) : M A :=
  match body with
  | (Raise (Exception msg), t) => let '(r, t') := handler msg in (r, t ++ t')
  | other => other
  end.

Definition outcome {A} (m : M A) : res A := fst m.
Definition trace {A} (m : M A) : list event := snd m.

(** What a collaborator answers to one call. *)
Inductive ext (A : Type) :=
| Returns (a : A)
| Raises (msg : string).
Arguments Returns {A} a.
Arguments Raises {A} msg.

(** A call that leaves the class: the event, then the answer. *)
Definition call {A} (ev : event) (answer : ext A) : M A :=
  match answer with
  | Returns a => (Ok a, [ev])
  | Raises msg => (Raise (Exception msg), [ev])
  end.

Definition logger (lvl : level) (msg : string) : M unit := emit (EvLog lvl msg).

(** ** The collaborators *)

(** One element of the list [client.generate] returns. *)
Inductive content :=
| TextResult (text : string)
| ToolCall (name : string).

(** One entry of [os.walk]: [(root, dirs, files)]. *)
Definition walk_entry : Type := string * list string * list string.

(** What [os.walk(self.workspace_manager.root)] does when it is iterated:
    the entries it yields, and the exception that ends the iteration
    early, if any. *)
Record walk := {
  yields : list walk_entry;
  failure : option string
}.

(** The collaborators during one pass of the loop. *)
Record world := {
  is_running : bool;                      (* [self.is_running] at the loop head *)
  os_walk : walk;
  getsize : string → ext Z;               (* [os.path.getsize] *)
  read_text : string → ext string;        (* [open(...)] and [f.read()] *)
  generate : string → ext (list content); (* [self.client.generate], by prompt *)
  sleep_cancelled : bool                  (* the task is cancelled while it sleeps *)
}.

(** The handler stored in [self.on_bugs_found]: it returns or raises. *)
Definition callback : Type := string → string → ext unit.

(** The fields of [ParallelBugHunter] the loop reads. The length of the
    sleep, [check_interval], has no part in what follows and is left out
    of the sleep event. *)
Record hunter := {
  on_bugs_found : option callback
}.

(** ** [BugHunterTool.run_impl] *)

Record ToolImplOutput := {
  tool_output : string;
  tool_result_message : string
}.

Definition prompt_of (file_path code : string) : string :=
  "Analyze this code for bugs and issues:" +:+ Py.nl +:+ Py.nl +:+
  "File: " +:+ file_path +:+ Py.nl +:+ Py.nl +:+
  "```python" +:+ Py.nl +:+ code +:+ Py.nl +:+ "```" +:+ Py.nl +:+ Py.nl +:+
  "Respond with:" +:+ Py.nl +:+
  "- " +:+ Py.dquote +:+ "NO_BUGS" +:+ Py.dquote +:+
    " if the code looks correct" +:+ Py.nl +:+
  "- " +:+ Py.dquote +:+ "BUGS_FOUND" +:+ Py.dquote +:+
    " followed by a list of specific issues if bugs are found" +:+ Py.nl +:+ Py.nl +:+
  "Be specific about what's wrong and suggest fixes.".

Definition run_impl (w : world) (tool_input : gmap string string) : M ToolImplOutput :=
  emit (EvRunImpl tool_input) ;;
  code ← match tool_input !! "code" with
         | Some c => ret c
         | None => raise (Exception "'code'")
         end;
  let file_path := default "unknown" (tool_input !! "file_path") in
  logger INFO ("Analyzing code in " +:+ file_path) ;;
  let prompt := prompt_of file_path code in
  try_except
    (response ← call (EvGenerate prompt) (generate w prompt);
     match response with
     | TextResult analysis_result :: _ =>
         ret {| tool_output := analysis_result;
                tool_result_message := "Bug analysis completed for " +:+ file_path |}
     | _ =>
         ret {| tool_output := "Failed to analyze code";
                tool_result_message := "Bug analysis failed" |}
     end)
    (λ e,
       logger ERROR ("Error in bug analysis: " +:+ e) ;;
       ret {| tool_output := "Error during analysis: " +:+ e;
              tool_result_message := "Bug analysis failed" |}).

(** ** [ParallelBugHunter._check_file] *)

(** The four ways out of the chain of tests on [analysis_text]
    (lines 193 to 208), under the names the specification gives them. *)
Inductive verdict := BugsFound | NoBugs | Unknown | Inconclusive.

Definition bug_indicators : list string :=
  ["error"; "bug"; "issue"; "problem"; "fix"; "wrong"; "incorrect"; "fails"].

(** [any(indicator in analysis_text for indicator in bug_indicators)] *)
Definition any_indicator (analysis_text : string) : bool :=
  existsb (λ indicator, Py.contains indicator analysis_text) bug_indicators.

Definition classify (tool_output : string) : verdict :=
  let analysis_text := Py.lower tool_output in
  if Py.startswith analysis_text "bugs_found" then BugsFound
  else if Py.startswith analysis_text "no_bugs" then NoBugs
  else if any_indicator analysis_text then Unknown
  else Inconclusive.

(** [if self.on_bugs_found: self.on_bugs_found(file_path, result.tool_output)] *)
Definition notify (h : hunter) (file_path report : string) : M unit :=
  match on_bugs_found h with
  | Some f => call (EvCallback file_path report) (f file_path report)
  | None => ret tt
  end.

Definition _check_file (h : hunter) (w : world) (file_path : string) : M unit :=
  try_except
    (size ← call (EvGetSize file_path) (getsize w file_path);
     if 50000 <? size then ret tt else
     code ← call (EvOpen file_path) (read_text w file_path);
     if Py.len code <? 50 then ret tt else
     logger INFO ("Checking " +:+ file_path +:+ " for bugs") ;;
     let tool_input : gmap string string :=
       {[ "code" := code; "file_path" := file_path ]} in
     result ← run_impl w tool_input;
     match classify (tool_output result) with
     | BugsFound =>
         logger WARNING ("Bugs found in " +:+ file_path) ;;
         notify h file_path (tool_output result)
     | NoBugs =>
         logger INFO ("No bugs found in " +:+ file_path)
     | Unknown =>
         logger WARNING ("Potential bugs found in " +:+ file_path +:+ " (fallback detection)") ;;
         notify h file_path (tool_output result)
     | Inconclusive => ret tt
     end)
    (λ e, logger ERROR ("Error checking file " +:+ file_path +:+ ": " +:+ e)).

(** ** [ParallelBugHunter._get_python_files] *)

(** The inner [for file in files] of one walk entry. *)
Definition add_files (python_files : gset string) (entry : walk_entry) : gset string :=
  let '(root, _, files) := entry in
  foldl (λ acc file,
           if Py.endswith file ".py" then acc ∪ {[ Py.join root file ]} else acc)
        python_files files.

(** The set built by the time the iteration of the walk ends, normally or
    by an exception. *)
Definition snapshot (w : world) : gset string :=
  foldl add_files ∅ (yields (os_walk w)).

Definition _get_python_files (w : world) : M (gset string) :=
  let python_files := snapshot w in
  match failure (os_walk w) with
  | Some e => logger ERROR ("Error getting Python files: " +:+ e) ;; ret python_files
  | None => ret python_files
  end.

(** ** [ParallelBugHunter._monitor_loop] *)

(** [for x in xs: body(x)] *)
Fixpoint for_each {A} (xs : list A) (body : A → M unit) : M unit :=
  match xs with
  | [] => ret tt
  | x :: xs' => body x ;; for_each xs' body
  end.

(** [await asyncio.sleep(self.check_interval)], for an interval that
    [asyncio.sleep] accepts (the [float] of the constructor, 5.0 unless
    given): the one place where the task is suspended, hence the one place
    where a cancellation reaches it. The loop with an interval that
    [asyncio.sleep] rejects is [monitor_x], further down. *)
Definition sleep (w : world) : M unit :=
  if sleep_cancelled w then (Raise CancelledError, [EvSleep]) else (Ok tt, [EvSleep]).

(** Lines 137 to 145: the part of the [try] block before the assignment
    to [last_files]. It returns [current_files]. The order in which a
    Python set is iterated is not fixed; [elements] is one such order. *)
Definition scan (h : hunter) (w : world) (last_files : gset string) : M (gset string) :=
  current_files ← _get_python_files w;
  let new_files := current_files ∖ last_files in
  (if bool_decide (new_files ≠ ∅) then
     logger INFO ("Found " +:+ pretty (size new_files) +:+ " new Python files") ;;
     for_each (elements new_files) (_check_file h w)
   else ret tt) ;;
  ret current_files.

(** How one pass through the body of the [while] ends. *)
Inductive pass_end :=
| Next (last_files : gset string)   (* back at the loop head, with this [last_files] *)
| Break                             (* [break] *)
| Escapes (e : exn).                (* an exception leaves the coroutine *)

(** [except Exception as e:] of the loop (lines 152 to 154). *)
Definition on_error (w : world) (e : string) (last_files : gset string) : pass_end * list event :=
  match logger ERROR ("Error in monitoring: " +:+ e) ;; sleep w with
  | (Ok _, t) => (Next last_files, t)
  | (Raise x, t) => (Escapes x, t)
  end.

Definition after {A} (t : list event) (r : A * list event) : A * list event :=
  (fst r, t ++ snd r).

(** One pass through the body of the [while] (lines 136 to 154). *)
Definition pass (h : hunter) (w : world) (last_files : gset string) : pass_end * list event :=
  match scan h w last_files with
  | (Ok current_files, t) =>
      (* last_files = current_files *)
      match sleep w with
      | (Ok _, t') => (Next current_files, t ++ t')
      | (Raise CancelledError, t') => (Break, t ++ t')
      | (Raise (Exception e), t') => after (t ++ t') (on_error w e current_files)
      end
  | (Raise CancelledError, t) => (Break, t)
  | (Raise (Exception e), t) => after t (on_error w e last_files)
  end.

(** How the loop stands when the worlds given to it are used up. *)
Inductive loop_end :=
| AtLoopHead (last_files : gset string)   (* still alive, about to test [is_running] *)
| Returned                                (* the coroutine has returned *)
| Failed (e : exn).                       (* the coroutine has ended by [e] *)

(** The [while self.is_running] loop, from a given [last_files], over the
    successive worlds. *)
Fixpoint monitor_from (h : hunter) (ws : list world) (last_files : gset string)
  : loop_end * list event :=
  match ws with
  | [] => (AtLoopHead last_files, [])
  | w :: ws' =>
      if is_running w then
        match pass h w last_files with
        | (Next last_files', t) => after t (monitor_from h ws' last_files')
        | (Break, t) => (Returned, t)
        | (Escapes e, t) => (Failed e, t)
        end
      else (Returned, [])
  end.

(** [last_files = set()], then the loop. *)
Definition _monitor_loop (h : hunter) (ws : list world) : loop_end * list event :=
  monitor_from h ws ∅.

(** ** The loop when the sleep itself raises

    [asyncio.sleep] raises a [TypeError] or a [ValueError] on an interval
    that is no number it can wait for. The world then says so, and the two
    sleeps of the loop body raise it: the one of the [try] block (line 148)
    and the one of the handler (line 154), which no [try] encloses. *)

Record world_x := {
  base : world;
  sleep_error : option string   (* the message of what [asyncio.sleep] raises *)
}.

Definition sleep_x (w : world_x) : M unit :=
  match sleep_error w with
  | Some msg => (Raise (Exception msg), [EvSleep])
  | None => sleep (base w)
  end.

(** [except Exception as e:] of the loop (lines 152 to 154). *)
Definition on_error_x (w : world_x) (e : string) (last_files : gset string)
  : pass_end * list event :=
  match logger ERROR ("Error in monitoring: " +:+ e) ;; sleep_x w with
  | (Ok _, t) => (Next last_files, t)
  | (Raise x, t) => (Escapes x, t)
  end.

(** One pass through the body of the [while] (lines 136 to 154). *)
Definition pass_x (h : hunter) (w : world_x) (last_files : gset string)
  : pass_end * list event :=
  match scan h (base w) last_files with
  | (Ok current_files, t) =>
      (* last_files = current_files *)
      match sleep_x w with
      | (Ok _, t') => (Next current_files, t ++ t')
      | (Raise CancelledError, t') => (Break, t ++ t')
      | (Raise (Exception e), t') => after (t ++ t') (on_error_x w e current_files)
      end
  | (Raise CancelledError, t) => (Break, t)
  | (Raise (Exception e), t) => after t (on_error_x w e last_files)
  end.

(** The [while self.is_running] loop over such worlds. *)
Fixpoint monitor_x (h : hunter) (ws : list world_x) (last_files : gset string)
  : loop_end * list event :=
  match ws with
  | [] => (AtLoopHead last_files, [])
  | w :: ws' =>
      if is_running (base w) then
        match pass_x h w last_files with
        | (Next last_files', t) => after t (monitor_x h ws' last_files')
        | (Break, t) => (Returned, t)
        | (Escapes e, t) => (Failed e, t)
        end
      else (Returned, [])
  end.

(** ** [ParallelBugHunter.start] and [stop] *)

Module Lifecycle.

(** [self.is_running], [self.task] (a task is named by the rank of its
    creation), and the tasks created by [start] that are not done. Each
    of [start] and [stop] is run to its end before the next call:
    [start] has no point of suspension, and [stop] awaits the task it
    has cancelled, which the cancellation ends at its sleep. *)
Record sched := {
  running : bool;
  task : option nat;
  created : nat;
  alive : gset nat
}.

(** [__init__] *)
Definition init : sched :=
  {| running := false; task := None; created := 0%nat; alive := ∅ |}.

Definition start (s : sched) : sched :=
  if running s then s
  else {| running := true;
          task := Some (created s);
          created := S (created s);
          alive := alive s ∪ {[ created s ]} |}.

Definition stop (s : sched) : sched :=
  {| running := false;
     task := task s;
     created := created s;
     alive := match task s with
              | Some t => alive s ∖ {[ t ]}
              | None => alive s
              end |}.

Inductive op := Start | Stop.

Definition step (s : sched) (o : op) : sched :=
  match o with
  | Start => start s
  | Stop => stop s
  end.

Definition run (ops : list op) : sched := foldl step init ops.

(** The tasks that are not done: none when the hunter is not running, the
    task of [self.task] when it is. *)
Definition consistent (s : sched) : Prop :=
  if running s then ∃ t, task s = Some t ∧ alive s = {[ t ]}
  else alive s = ∅.

End Lifecycle.

(** ** Reading a trace *)

(** The calls [(file_path, report)] made to the callback, in order. *)
Definition callbacks (t : list event) : list (string * string) :=
  omap (λ ev, match ev with
              | EvCallback p report => Some (p, report)
              | _ => None
              end) t.

(** [ev] is the call of [run_impl] on the file [p]: the file is handed to
    the analyzer. *)
Definition analysed (p : string) (ev : event) : bool :=
  match ev with
  | EvRunImpl tool_input => bool_decide (tool_input !! "file_path" = Some p)
  | _ => false
  end.

(** [ev] is one of the calls [_check_file] makes for the file [p]: its
    size is asked, it is opened, it is handed to the analyzer, or the
    callback is called for it. *)
Definition touches (p : string) (ev : event) : bool :=
  match ev with
  | EvGetSize q | EvOpen q | EvCallback q _ => bool_decide (q = p)
  | EvRunImpl _ => analysed p ev
  | _ => false
  end.

(** The paths whose size is asked, in order. *)
Definition size_checks (t : list event) : list string :=
  omap (λ ev, match ev with
              | EvGetSize p => Some p
              | _ => None
              end) t.

(** The prompts sent to the client, in order. *)
Definition prompts (t : list event) : list string :=
  omap (λ ev, match ev with
              | EvGenerate prompt => Some prompt
              | _ => None
              end) t.

(** ** The code in closed form

    The events of each function written out case by case; the lemmas of
    the next part show that the functions above emit exactly these. *)

(** What [run_impl] returns for each answer of the client. *)
Definition result_of (file_path : string) (answer : ext (list content)) : ToolImplOutput :=
  match answer with
  | Returns (TextResult text :: _) =>
      {| tool_output := text;
         tool_result_message := "Bug analysis completed for " +:+ file_path |}
  | Returns _ =>
      {| tool_output := "Failed to analyze code";
         tool_result_message := "Bug analysis failed" |}
  | Raises e =>
      {| tool_output := "Error during analysis: " +:+ e;
         tool_result_message := "Bug analysis failed" |}
  end.

Definition run_impl_events (file_path code : string) (answer : ext (list content))
  : list event :=
  [EvRunImpl {[ "code" := code; "file_path" := file_path ]};
   EvLog INFO ("Analyzing code in " +:+ file_path);
   EvGenerate (prompt_of file_path code)]
  ++ match answer with
     | Raises e => [EvLog ERROR ("Error in bug analysis: " +:+ e)]
     | Returns _ => []
     end.

(** The call of the callback, and the handler of [_check_file] when the
    callback raises. *)
Definition notify_events (h : hunter) (p report : string) : list event :=
  match on_bugs_found h with
  | Some f =>
      EvCallback p report ::
      match f p report with
      | Returns _ => []
      | Raises e => [EvLog ERROR ("Error checking file " +:+ p +:+ ": " +:+ e)]
      end
  | None => []
  end.

Definition verdict_events (h : hunter) (p report : string) : list event :=
  match classify report with
  | BugsFound => EvLog WARNING ("Bugs found in " +:+ p) :: notify_events h p report
  | NoBugs => [EvLog INFO ("No bugs found in " +:+ p)]
  | Unknown =>
      EvLog WARNING ("Potential bugs found in " +:+ p +:+ " (fallback detection)")
      :: notify_events h p report
  | Inconclusive => []
  end.

Definition check_events (h : hunter) (w : world) (p : string) : list event :=
  match getsize w p with
  | Raises e => [EvGetSize p; EvLog ERROR ("Error checking file " +:+ p +:+ ": " +:+ e)]
  | Returns size =>
      if 50000 <? size then [EvGetSize p] else
      match read_text w p with
      | Raises e =>
          [EvGetSize p; EvOpen p;
           EvLog ERROR ("Error checking file " +:+ p +:+ ": " +:+ e)]
      | Returns code =>
          if Py.len code <? 50 then [EvGetSize p; EvOpen p] else
          let answer := generate w (prompt_of p code) in
          [EvGetSize p; EvOpen p; EvLog INFO ("Checking " +:+ p +:+ " for bugs")]
          ++ run_impl_events p code answer
          ++ verdict_events h p (tool_output (result_of p answer))
      end
  end.

Definition enumeration_events (w : world) : list event :=
  match failure (os_walk w) with
  | Some e => [EvLog ERROR ("Error getting Python files: " +:+ e)]
  | None => []
  end.

Definition scan_events (h : hunter) (w : world) (last_files : gset string) : list event :=
  let new_files := snapshot w ∖ last_files in
  enumeration_events w ++
  if bool_decide (new_files ≠ ∅) then
    EvLog INFO ("Found " +:+ pretty (size new_files) +:+ " new Python files")
    :: concat (check_events h w <$> elements new_files)
  else [].

(** [last_files] once the loop has gone through the worlds [ws]. *)
Definition last_snapshot (ws : list world) (last_files : gset string) : gset string :=
  foldl (λ _ w, snapshot w) last_files ws.

(** The loop is not stopped during the worlds [ws]: [is_running] holds at
    each loop head and no sleep is cancelled. *)
Definition undisturbed (ws : list world) : Prop :=
  Forall (λ w, is_running w = true ∧ sleep_cancelled w = false) ws.

(** ** A small workspace

    The directory [/ws] with the one source file [a.py] next to a file
    that is not a source file. *)

Definition demo_code : string :=
  "def last(xs):" +:+ Py.nl +:+
  "    # the last element of a list that must never be empty here" +:+ Py.nl +:+
  "    return xs[len(xs)]" +:+ Py.nl.

(** [n] lines of ten characters each. *)
Fixpoint padding (n : nat) : string :=
  match n with
  | O => EmptyString
  | S k => "pass    #" +:+ Py.nl +:+ padding k
  end.

(** A source text of 60,000 characters. *)
Definition big_code : string := padding 6000.

Definition demo_walk : walk :=
  {| yields := [("/ws", [], ["a.py"; "notes.txt"])]; failure := None |}.

(** The walk fails before it yields anything. *)
Definition broken_walk : walk :=
  {| yields := []; failure := Some "[Errno 5] Input/output error" |}.

(** Every file has [size] bytes and the content [text]; the client
    answers [answer] to every prompt. *)
Definition demo_world (wk : walk) (size : Z) (text : ext string)
    (answer : ext (list content)) : world :=
  {| is_running := true;
     os_walk := wk;
     getsize := λ _, Returns size;
     read_text := λ _, text;
     generate := λ _, answer;
     sleep_cancelled := false |}.

(** A callback that returns, and the hunter it is registered with. *)
Definition recorder : callback := λ _ _, Returns tt.
Definition watched : hunter := {| on_bugs_found := Some recorder |}.

(** The client raises on every call. *)
Definition service_down : world :=
  demo_world demo_walk 100 (Returns demo_code) (Raises "connection refused").

(** The client returns an empty list on every call. *)
Definition service_mute : world :=
  demo_world demo_walk 100 (Returns demo_code) (Returns []).

(** The client reports a bug. *)
Definition service_up : world :=
  demo_world demo_walk 100 (Returns demo_code)
    (Returns [TextResult "BUGS_FOUND: off-by-one at line 3"]).

(** The enumeration fails. *)
Definition walk_down : world :=
  demo_world broken_walk 100 (Returns demo_code)
    (Returns [TextResult "NO_BUGS"]).

(** [a.py] has 60,000 bytes. *)
Definition big_file : world :=
  demo_world demo_walk 60000 (Returns big_code)
    (Returns [TextResult "BUGS_FOUND: off-by-one at line 3"]).

(** [a.py] cannot be read. *)
Definition unreadable : world :=
  demo_world demo_walk 100 (Raises "[Errno 13] Permission denied")
    (Returns [TextResult "NO_BUGS"]).

(** The walk yields the top directory, then fails. *)
Definition cut_walk : walk :=
  {| yields := [("/ws", ["pkg"], ["a.py"])];
     failure := Some "[Errno 5] Input/output error" |}.

Definition walk_cut : world :=
  demo_world cut_walk 100 (Returns demo_code) (Returns [TextResult "NO_BUGS"]).

(** ** The filters of [_check_file] *)

(** [_check_file] returns at one of its two filters: the file is larger
    than 50000 bytes, or it is not and its content is shorter than 50
    characters. *)
Definition skipped (w : world) (p : string) : Prop :=
  (∃ size, getsize w p = Returns size ∧ 50000 < size) ∨
  (∃ size code, getsize w p = Returns size ∧ size ≤ 50000 ∧
                read_text w p = Returns code ∧ Py.len code < 50).

(** ** [utils/console.py] *)

Module Console.

(** [c.isspace()] on the ASCII characters: tab to carriage return, the
    four separators 28 to 31, and the space. *)
Definition is_space (c : ascii) : bool :=
  let n := nat_of_ascii c in
  ((9 <=? n) && (n <=? 13) || (28 <=? n) && (n <=? 32))%nat.

(** [s.lstrip()] *)
Fixpoint lstrip (s : string) : string :=
  match s with
  | EmptyString => EmptyString
  | String c s' => if is_space c then lstrip s' else s
  end.

(** [s.rstrip()] *)
Fixpoint rstrip (s : string) : string :=
  match s with
  | EmptyString => EmptyString
  | String c s' =>
      match rstrip s' with
      | EmptyString => if is_space c then EmptyString else String c EmptyString
      | kept => String c kept
      end
  end.

(** [s.strip()] *)
Definition strip (s : string) : string := rstrip (lstrip s).

(** [Confirm.ask(question)]; [prompt] is [prompt_toolkit.prompt], which
    returns the line the user has typed. *)
Definition ask (prompt : string → string) (question : string) : bool :=
  let response := strip (Py.lower (prompt (question +:+ " [y/n] "))) in
  Py.startswith response "y".

(** [l[start:]] for an integer [start]: a negative index counts from the
    end, and an index out of range is clipped. *)
Definition slice_from {A} (start : Z) (l : list A) : list A :=
  let n := Z.of_nat (length l) in
  let first := if start <? 0 then Z.max (start + n) 0 else Z.min start n in
  drop (Z.to_nat first) l.

(** [display_lines] of [LogDisplay.__rich__] (lines 97 to 101), for the
    [height] given to [create_live_output_display]. *)
Definition display_lines (height : Z) (log_lines : list string) : list string :=
  if height <? Z.of_nat (length log_lines)
  then slice_from (- height) log_lines
  else log_lines.

(** Every character of [s] is a white space. *)
Definition blank (s : string) : bool :=
  forallb is_space (list_ascii_of_string s).

End Console.

(** ** [tools/web_search_tool.py] *)

Module WebSearch.

(** A decoded JSON value, as [response.json()] returns it. A number
    carries the text [str] gives for it; an object is the [dict] built from
    it, its keys distinct. *)
#[warnings="-register-all"]
Inductive json :=
| JNull
| JBool (b : bool)
| JInt (text : string)
| JFloat (text : string)
| JStr (s : string)
| JArr (items : list json)
| JObj (fields : list (string * json)).

(** [type(v).__name__] *)
Definition type_name (v : json) : string :=
  match v with
  | JNull => "NoneType"
  | JBool _ => "bool"
  | JInt _ => "int"
  | JFloat _ => "float"
  | JStr _ => "str"
  | JArr _ => "list"
  | JObj _ => "dict"
  end.

(** [d.get(key)] on the fields of a [dict]. *)
Fixpoint assoc (key : string) (fields : list (string * json)) : option json :=
  match fields with
  | [] => None
  | (k, v) :: fields' => if String.eqb k key then Some v else assoc key fields'
  end.

(** One search result: the [dict] with the keys [title], [url], [snippet]. *)
Record result := {
  title : json;
  url : json;
  snippet : json
}.

(** What the request of lines 97 to 100 does: [requests.get],
    [raise_for_status] and [json()] raise a [RequestException], or another
    exception, or give the decoded answer. *)
Inductive reply :=
| RequestFailed (msg : string)
| DecodingFailed (msg : string)
| Data (data : json).

Inductive wev :=
| Log (lvl : level) (msg : string)
| Get (url : string) (params : list (string * string)) (timeout : Z)
| Generate (prompt : string) (max_tokens : Z).

(** The collaborators of the tool. *)
Record env := {
  getenv : string → option string;                      (* [os.getenv] *)
  http : string → list (string * string) → reply;       (* the request, by url and parameters *)
  hash : string → Z;                                    (* [hash] on strings *)
  str_of : json → string;                               (* [str] on lists and dicts *)
  gpt5_client : option (string → ext (list content))    (* [self.gpt5_client] and its [generate] *)
}.

(** Computations of the tool: as [M], over the events of the tool. *)
Definition W (A : Type) : Type := res A * list wev.

Definition wret {A} (a : A) : W A := (Ok a, []).

Definition wbind {A B} (m : W A) (k : A → W B) : W B :=
  match m with
  | (Ok a, t) => let '(r, t') := k a in (r, t ++ t')
  | (Raise e, t) => (Raise e, t)
  end.

Definition wraise {A} (msg : string) : W A := (Raise (Exception msg), []).

Definition wemit (ev : wev) : W unit := (Ok tt, [ev]).

Definition wlog (lvl : level) (msg : string) : W unit := wemit (Log lvl msg).

(** [try: body  except Exception as e: handler(str(e))] *)
Definition wtry {A} (body : W A) (handler : string → W A) : W A :=
  match body with
  | (Raise (Exception msg), t) => let '(r, t') := handler msg in (r, t ++ t')
  | other => other
  end.

Notation "x <- m ;; k" := (wbind m (λ x, k))
  (at level 100, m at next level, right associativity, only parsing).
Notation "m ;;; k" := (wbind m (λ _, k))
  (at level 100, right associativity, only parsing).

(** [s.replace(old, new)] for two strings of one character each. *)
Fixpoint replace_char (old new : ascii) (s : string) : string :=
  match s with
  | EmptyString => EmptyString
  | String c s' => String (if Ascii.eqb c old then new else c) (replace_char old new s')
  end.

(** [sep.join(parts)] *)
Fixpoint join (sep : string) (parts : list string) : string :=
  match parts with
  | [] => EmptyString
  | [part] => part
  | part :: parts' => part +:+ sep +:+ join sep parts'
  end.

(** [str(v)], as the f-strings of [run_impl] apply it to a field. *)
Definition text_of (e : env) (v : json) : string :=
  match v with
  | JNull => "None"
  | JBool true => "True"
  | JBool false => "False"
  | JInt text | JFloat text => text
  | JStr s => s
  | JArr _ | JObj _ => str_of e v
  end.

(** [if not value], for what [os.getenv] returns. *)
Definition unset (value : option string) : bool :=
  match value with
  | None => true
  | Some s => String.eqb s ""
  end.

(** [WebSearchTool._mock_web_search] *)
Definition _mock_web_search (e : env) (query : string) : list result :=
  [ {| title := JStr ("Documentation: " +:+ query);
       url := JStr ("https://docs.example.com/" +:+ replace_char " " "-" query);
       snippet := JStr ("Official documentation for " +:+ query
                        +:+ " with examples and API reference.") |};
    {| title := JStr ("Stack Overflow: " +:+ query);
       url := JStr ("https://stackoverflow.com/questions/"
                    +:+ pretty (hash e query `mod` 1000000));
       snippet := JStr ("Common questions and answers about " +:+ query
                        +:+ " from the developer community.") |};
    {| title := JStr ("GitHub: " +:+ query +:+ " examples");
       url := JStr ("https://github.com/search?q=" +:+ replace_char " " "+" query);
       snippet := JStr ("Open source projects and code examples related to " +:+ query
                        +:+ ".") |} ].

Definition no_attribute (v : json) (attr : string) : string :=
  "'" +:+ type_name v +:+ "' object has no attribute '" +:+ attr +:+ "'".

(** The body of the loop of lines 103 to 108, for one item: [item.get]
    needs a [dict]. *)
Definition result_of_item (item : json) : string + result :=
  match item with
  | JObj fields =>
      inr {| title := default (JStr "") (assoc "title" fields);
             url := default (JStr "") (assoc "link" fields);
             snippet := default (JStr "") (assoc "snippet" fields) |}
  | _ => inl (no_attribute item "get")
  end.

(** The loop over a list of items: the results, or the message of the
    exception the first bad item raises. *)
Fixpoint results_of_items (items : list json) : string + list result :=
  match items with
  | [] => inr []
  | item :: items' =>
      match result_of_item item with
      | inl msg => inl msg
      | inr r =>
          match results_of_items items' with
          | inl msg => inl msg
          | inr rs => inr (r :: rs)
          end
      end
  end.

(** Lines 102 to 110 on the decoded answer: [data.get] needs a [dict];
    what is found under [items] is iterated, a list item by item, a string
    character by character, a [dict] key by key, and anything else is not
    iterable. *)
Definition results_of (data : json) : string + list result :=
  match data with
  | JObj fields =>
      match default (JArr []) (assoc "items" fields) with
      | JArr items => results_of_items items
      | JStr EmptyString => inr []
      | JStr (String c _) => inl (no_attribute (JStr (String c EmptyString)) "get")
      | JObj [] => inr []
      | JObj ((k, _) :: _) => inl (no_attribute (JStr k) "get")
      | other => inl ("'" +:+ type_name other +:+ "' object is not iterable")
      end
  | _ => inl (no_attribute data "get")
  end.

Definition search_url : string := "https://www.googleapis.com/customsearch/v1".

(** [WebSearchTool._google_search] *)
Definition _google_search (e : env) (query : string) : W (list result) :=
  let api_key := getenv e "GOOGLE_API_KEY" in
  let search_engine_id := getenv e "GOOGLE_SEARCH_ENGINE_ID" in
  if unset api_key || unset search_engine_id then
    wlog WARNING "Google API credentials not set, falling back to mock search" ;;;
    wraise "Google API credentials not set"
  else
    let params := [("key", default "" api_key); ("cx", default "" search_engine_id);
                   ("q", query); ("num", "5"); ("safe", "active")] in
    wemit (Get search_url params 10) ;;;
    match http e search_url params with
    | RequestFailed msg =>
        wlog ERROR ("Google API request failed: " +:+ msg) ;;;
        wret (_mock_web_search e query)
    | DecodingFailed msg =>
        wlog ERROR ("Error processing Google API response: " +:+ msg) ;;;
        wret (_mock_web_search e query)
    | Data data =>
        match results_of data with
        | inr results => wret results
        | inl msg =>
            wlog ERROR ("Error processing Google API response: " +:+ msg) ;;;
            wret (_mock_web_search e query)
        end
    end.

Definition analysis_prompt (query results : string) : string :=
  "What's the most important information from these search results for "
  +:+ Py.dquote +:+ query +:+ Py.dquote +:+ "?" +:+ Py.nl +:+ Py.nl +:+
  "Results:" +:+ Py.nl +:+ results +:+ Py.nl +:+ Py.nl +:+
  "Give a brief, direct answer focusing on the key information only.".

(** [WebSearchTool._analyse_with_gpt5] *)
Definition _analyse_with_gpt5 (e : env) (query results : string) : W string :=
  match gpt5_client e with
  | None => wret "GPT-4o analysis unavailable"
  | Some generate =>
      let prompt := analysis_prompt query results in
      wtry
        (wemit (Generate prompt 200) ;;;
         match generate prompt with
         | Raises msg => wraise msg
         | Returns [] => wret "No analysis available"
         | Returns (TextResult text :: _) => wret text
         | Returns (ToolCall _ :: _) => wraise "'ToolCall' object has no attribute 'text'"
         end)
        (λ msg,
           wlog ERROR ("Error calling GPT-4o for analysis: " +:+ msg) ;;;
           wret ("Error analyzing results: " +:+ msg))
  end.

(** The text of one result in [results_text]. *)
Definition result_text (e : env) (r : result) : string :=
  "Title: " +:+ text_of e (title r) +:+ Py.nl +:+
  "URL: " +:+ text_of e (url r) +:+ Py.nl +:+
  "Snippet: " +:+ text_of e (snippet r).

(** [WebSearchTool.run_impl] *)
Definition run_impl (e : env) (tool_input : gmap string string) : W ToolImplOutput :=
  query <- match tool_input !! "query" with
           | Some q => wret q
           | None => wraise "'query'"
           end ;;
  wtry
    (search_results <- _google_search e query ;;
     let results_text := join (Py.nl +:+ Py.nl) (result_text e <$> search_results) in
     analysis <- _analyse_with_gpt5 e query results_text ;;
     wret {| tool_output := analysis;
             tool_result_message := "Searched for: " +:+ query |})
    (λ msg,
       wlog ERROR ("Error in web search tool: " +:+ msg) ;;;
       wret {| tool_output := "Error performing web search: " +:+ msg;
               tool_result_message := "Search failed" |}).

(** The requests made and the prompts sent, read off a trace. *)
Definition requests (t : list wev) : list string :=
  omap (λ ev, match ev with Get u _ _ => Some u | _ => None end) t.

Definition analyses (t : list wev) : list string :=
  omap (λ ev, match ev with Generate prompt _ => Some prompt | _ => None end) t.

(** No character of [s] is [c]. *)
Definition free_of (c : ascii) (s : string) : bool :=
  forallb (λ d, negb (Ascii.eqb d c)) (list_ascii_of_string s).

(** *** The tool in closed form *)

(** The parameters of the request [_google_search] makes. *)
Definition params_of (e : env) (query : string) : list (string * string) :=
  [("key", default "" (getenv e "GOOGLE_API_KEY"));
   ("cx", default "" (getenv e "GOOGLE_SEARCH_ENGINE_ID"));
   ("q", query); ("num", "5"); ("safe", "active")].

(** The result built from the fields of one item. *)
Definition result_of_fields (fields : list (string * json)) : result :=
  {| title := default (JStr "") (assoc "title" fields);
     url := default (JStr "") (assoc "link" fields);
     snippet := default (JStr "") (assoc "snippet" fields) |}.

(** [_analyse_with_gpt5] in closed form: it always returns. *)
Definition analysis_of (e : env) (query results : string) : string :=
  match gpt5_client e with
  | None => "GPT-4o analysis unavailable"
  | Some generate =>
      match generate (analysis_prompt query results) with
      | Raises msg => "Error analyzing results: " +:+ msg
      | Returns [] => "No analysis available"
      | Returns (TextResult text :: _) => text
      | Returns (ToolCall _ :: _) =>
          "Error analyzing results: 'ToolCall' object has no attribute 'text'"
      end
  end.

(** The search in closed form, once the credentials are set. *)
Definition found (e : env) (query : string) : list result :=
  match http e search_url (params_of e query) with
  | Data data =>
      match results_of data with
      | inr results => results
      | inl _ => _mock_web_search e query
      end
  | _ => _mock_web_search e query
  end.

(** A setting for examples: the credentials are set (or not), the request
    gets [answer], and the client answers with one text. *)
Definition demo_env (credentials : bool) (answer : reply) : env :=
  {| getenv := λ _, if credentials then Some "secret" else None;
     http := λ _ _, answer;
     hash := λ _, -7;
     str_of := λ _, "[...]";
     gpt5_client := Some (λ _, Returns [TextResult "Use stdpp."]) |}.

End WebSearch.

(** * Properties *)

(** ** Strings *)

Module PyFacts.
Import Py.

Lemma app_nil (t : string) : "" +:+ t = t.
Proof. reflexivity. Qed.

Lemma app_cons (c : ascii) (s t : string) : String c s +:+ t = String c (s +:+ t).
Proof. reflexivity. Qed.

Lemma lower_app (s t : string) : lower (s +:+ t) = lower s +:+ lower t.
Proof.
  induction s as [|c s IH]; [reflexivity|].
  rewrite app_cons. simpl. rewrite IH. reflexivity.
Qed.

Lemma startswith_app (p t : string) : startswith (p +:+ t) p = true.
Proof.
  induction p as [|c p IH]; [reflexivity|].
  rewrite app_cons. simpl. rewrite Ascii.eqb_refl. exact IH.
Qed.

Lemma contains_here (sub s : string) : startswith s sub = true → contains sub s = true.
Proof. intros H. destruct s; simpl; rewrite H; reflexivity. Qed.

Lemma contains_later (sub : string) (c : ascii) (s : string) :
  contains sub s = true → contains sub (String c s) = true.
Proof. intros H. simpl. rewrite H. apply orb_true_r. Qed.

(** [sub in a + sub + b] *)
Lemma contains_app (sub a b : string) : contains sub (a +:+ sub +:+ b) = true.
Proof.
  induction a as [|c a IH].
  - rewrite app_nil. apply contains_here, startswith_app.
  - rewrite app_cons. apply contains_later, IH.
Qed.

(** A text that holds one of the listed words holds an indicator. *)
Lemma existsb_contains (words : list string) (word s : string) :
  word ∈ words → contains word s = true →
  existsb (λ indicator, contains indicator s) words = true.
Proof.
  intros Hin Hc. apply existsb_exists. exists word. split; [|exact Hc].
  apply list_elem_of_In, Hin.
Qed.

End PyFacts.

(** ** The code emits the events of its closed form *)

(** The sizes of the two source texts of the small workspace. *)
Example demo_code_len : Py.len demo_code = 100.
Proof. reflexivity. Qed.

Example big_code_len : Py.len big_code = 60000.
Proof. by vm_compute. Qed.

Ltac unfold_m :=
  unfold outcome, trace, notify, mbind, M_bind, bind, try_except, call, logger,
    emit, mret, M_ret, ret, raise in *.

Lemma tool_input_code (c p : string) :
  ({[ "code" := c; "file_path" := p ]} : gmap string string) !! "code" = Some c.
Proof. reflexivity. Qed.

Lemma tool_input_file_path (c p : string) :
  ({[ "code" := c; "file_path" := p ]} : gmap string string) !! "file_path" = Some p.
Proof. reflexivity. Qed.

(** [run_impl] never raises on the input [_check_file] builds. *)
Lemma run_impl_eq (w : world) (c p : string) :
  run_impl w {[ "code" := c; "file_path" := p ]}
  = (Ok (result_of p (generate w (prompt_of p c))),
     run_impl_events p c (generate w (prompt_of p c))).
Proof.
  unfold run_impl, run_impl_events. rewrite tool_input_code, tool_input_file_path. simpl.
  unfold_m. simpl.
  destruct (generate w (prompt_of p c)) as [[|[t|n] l]|e]; reflexivity.
Qed.

(** [_check_file] never raises: its handler catches what the calls raise. *)
Lemma check_file_eq (h : hunter) (w : world) (p : string) :
  _check_file h w p = (Ok tt, check_events h w p).
Proof.
  unfold _check_file, check_events.
  destruct (getsize w p) as [size|e]; [|reflexivity].
  unfold mbind at 1. unfold M_bind, bind, call at 1.
  destruct (50000 <? size); [reflexivity|].
  destruct (read_text w p) as [code|e]; [|reflexivity].
  unfold mbind at 1. unfold M_bind, bind, call at 1.
  destruct (Py.len code <? 50); [reflexivity|].
  unfold mbind at 1. unfold M_bind, bind, logger at 1. unfold emit at 1.
  unfold mbind at 1. unfold M_bind, bind. rewrite run_impl_eq.
  unfold verdict_events, notify_events.
  destruct (classify _); unfold_m; simpl.
  - destruct (on_bugs_found h) as [f|]; [|reflexivity].
    destruct (f p _) as [[]|e]; simpl; rewrite <- ?app_assoc; reflexivity.
  - reflexivity.
  - destruct (on_bugs_found h) as [f|]; [|reflexivity].
    destruct (f p _) as [[]|e]; simpl; rewrite <- ?app_assoc; reflexivity.
  - reflexivity.
Qed.

Lemma for_each_eq {A} (xs : list A) (body : A → M unit) (events : A → list event) :
  (∀ x, body x = (Ok tt, events x)) →
  for_each xs body = (Ok tt, concat (events <$> xs)).
Proof.
  intros Hbody. induction xs as [|x xs IH]; [reflexivity|].
  simpl. unfold mbind, M_bind, bind. rewrite Hbody, IH. reflexivity.
Qed.

Lemma get_python_files_eq (w : world) :
  _get_python_files w = (Ok (snapshot w), enumeration_events w).
Proof.
  unfold _get_python_files, enumeration_events.
  destruct (failure (os_walk w)); reflexivity.
Qed.

(** The scan never raises and returns the snapshot. *)
Lemma scan_eq (h : hunter) (w : world) (last_files : gset string) :
  scan h w last_files = (Ok (snapshot w), scan_events h w last_files).
Proof.
  unfold scan, scan_events. rewrite get_python_files_eq.
  unfold mbind at 1. unfold M_bind, bind.
  destruct (bool_decide (snapshot w ∖ last_files ≠ ∅)).
  - unfold mbind at 2. unfold M_bind, bind, logger, emit.
    rewrite (for_each_eq _ _ (check_events h w) (check_file_eq h w)).
    unfold_m. simpl. rewrite app_nil_r. reflexivity.
  - unfold_m. simpl. rewrite app_nil_r. reflexivity.
Qed.

(** One pass: the handler of the loop is never entered; the pass ends at
    the sleep, by [break] when the sleep is cancelled and at the loop head
    with the snapshot as [last_files] otherwise. *)
Lemma pass_eq (h : hunter) (w : world) (last_files : gset string) :
  pass h w last_files
  = (if sleep_cancelled w then Break else Next (snapshot w),
     scan_events h w last_files ++ [EvSleep]).
Proof.
  unfold pass, sleep. rewrite scan_eq.
  destruct (sleep_cancelled w); reflexivity.
Qed.

Lemma monitor_from_cons (h : hunter) (w : world) (ws : list world) (last_files : gset string) :
  is_running w = true → sleep_cancelled w = false →
  monitor_from h (w :: ws) last_files
  = after (scan_events h w last_files ++ [EvSleep]) (monitor_from h ws (snapshot w)).
Proof.
  intros Hrun Hsleep. simpl. rewrite Hrun, pass_eq, Hsleep. reflexivity.
Qed.

(** ** Which file an event is about *)

(** Membership in a list that is written out, case by case. *)
Ltac in_cases H :=
  repeat match type of H with
         | _ ∈ [] => by apply elem_of_nil in H
         | _ ∈ _ :: _ => apply elem_of_cons in H as [->|H]
         | _ ∈ _ ++ _ => apply elem_of_app in H as [H|H]
         end.

Lemma analysed_touches (p : string) (ev : event) :
  analysed p ev = true → touches p ev = true.
Proof. destruct ev; simpl; congruence. Qed.

Lemma touches_notify (h : hunter) (q report p : string) (ev : event) :
  ev ∈ notify_events h q report → touches p ev = true → q = p.
Proof.
  unfold notify_events. intros Hin Ht.
  destruct (on_bugs_found h) as [f|]; [|by apply elem_of_nil in Hin].
  apply elem_of_cons in Hin as [->|Hin].
  - simpl in Ht. by apply bool_decide_eq_true in Ht.
  - destruct (f q report); [by apply elem_of_nil in Hin|].
    apply list_elem_of_singleton in Hin as ->. discriminate.
Qed.

Lemma touches_verdict (h : hunter) (q report p : string) (ev : event) :
  ev ∈ verdict_events h q report → touches p ev = true → q = p.
Proof.
  unfold verdict_events. intros Hin Ht. destruct (classify report).
  - apply elem_of_cons in Hin as [->|Hin]; [discriminate|]. eauto using touches_notify.
  - apply list_elem_of_singleton in Hin as ->. discriminate.
  - apply elem_of_cons in Hin as [->|Hin]; [discriminate|]. eauto using touches_notify.
  - by apply elem_of_nil in Hin.
Qed.

Lemma touches_run_impl (q code : string) (answer : ext (list content)) (p : string) (ev : event) :
  ev ∈ run_impl_events q code answer → touches p ev = true → q = p.
Proof.
  unfold run_impl_events. intros Hin Ht.
  apply elem_of_app in Hin as [Hin|Hin].
  - repeat (apply elem_of_cons in Hin as [->|Hin]); try discriminate.
    + simpl in Ht. apply bool_decide_eq_true in Ht.
      rewrite tool_input_file_path in Ht. congruence.
    + by apply elem_of_nil in Hin.
  - destruct answer; [by apply elem_of_nil in Hin|].
    apply list_elem_of_singleton in Hin as ->. discriminate.
Qed.

(** Every call [_check_file] makes is about the file it is given. *)
Lemma touches_check (h : hunter) (w : world) (q p : string) (ev : event) :
  ev ∈ check_events h w q → touches p ev = true → q = p.
Proof.
  unfold check_events. intros Hin Ht.
  destruct (getsize w q) as [size|e];
    [destruct (50000 <? size);
       [|destruct (read_text w q) as [code|e]; [destruct (Py.len code <? 50)|]]|];
    in_cases Hin;
    try discriminate;
    try (simpl in Ht; by apply bool_decide_eq_true in Ht);
    eauto using touches_run_impl, touches_verdict.
Qed.

(** A file is handed to the analyzer only after it has passed both filters. *)
Lemma analysed_check (h : hunter) (w : world) (p : string) (ev : event) :
  ev ∈ check_events h w p → analysed p ev = true →
  ∃ size code, getsize w p = Returns size ∧ size ≤ 50000 ∧
               read_text w p = Returns code ∧ 50 ≤ Py.len code.
Proof.
  unfold check_events. intros Hin Ha.
  destruct (getsize w p) as [size|e];
    [destruct (50000 <? size) eqn:Hsize;
       [|destruct (read_text w p) as [code|e];
           [destruct (Py.len code <? 50) eqn:Hlen|]]|].
  3: { exists size, code. repeat split; try reflexivity; lia. }
  all: in_cases Hin; discriminate.
Qed.

Lemma elem_of_concat {A} (x : A) (ls : list (list A)) :
  x ∈ concat ls ↔ ∃ l, x ∈ l ∧ l ∈ ls.
Proof.
  induction ls as [|l0 ls IH]; simpl.
  - split; [by intros ?%elem_of_nil|]. by intros (l & _ & ?%elem_of_nil).
  - rewrite elem_of_app, IH. split.
    + intros [H|(l & H1 & H2)]; [exists l0|exists l]; split; auto;
        apply elem_of_cons; auto.
    + intros (l & H1 & [->|H2]%elem_of_cons); [by left|right; eauto].
Qed.

(** The calls of a scan that are about a file are the calls of
    [_check_file] on it, and the file is new. *)
Lemma touches_scan (h : hunter) (w : world) (last_files : gset string) (p : string) (ev : event) :
  ev ∈ scan_events h w last_files → touches p ev = true →
  p ∈ snapshot w ∧ (p ∉ last_files) ∧ ev ∈ check_events h w p.
Proof.
  unfold scan_events, enumeration_events. intros Hin Ht.
  apply elem_of_app in Hin as [Hin|Hin].
  { destruct (failure (os_walk w)); [|by apply elem_of_nil in Hin].
    apply list_elem_of_singleton in Hin as ->. discriminate. }
  destruct (bool_decide _); [|by apply elem_of_nil in Hin].
  apply elem_of_cons in Hin as [->|Hin]; [discriminate|].
  apply elem_of_concat in Hin as (l & Hev & Hl).
  apply list_elem_of_fmap in Hl as (q & -> & Hq).
  apply elem_of_elements, elem_of_difference in Hq as [Hq1 Hq2].
  assert (q = p) as -> by eauto using touches_check.
  done.
Qed.

(** Every new file of the snapshot is checked by the scan. *)
Lemma scan_checks_new (h : hunter) (w : world) (last_files : gset string) (p : string) (ev : event) :
  p ∈ snapshot w → p ∉ last_files →
  ev ∈ check_events h w p → ev ∈ scan_events h w last_files.
Proof.
  intros Hp Hlast Hev. unfold scan_events.
  apply elem_of_app. right.
  assert (Hnew : p ∈ snapshot w ∖ last_files) by (by apply elem_of_difference).
  rewrite bool_decide_eq_true_2 by (intros Hempty; rewrite Hempty in Hnew; set_solver).
  apply elem_of_cons. right.
  apply elem_of_concat. exists (check_events h w p). split; [done|].
  apply list_elem_of_fmap. exists p. split; [done|].
  by apply elem_of_elements.
Qed.

(** ** The loop *)

(** The events of a run of the loop that are about a file come from a call
    of [_check_file] on it, in one of the worlds. *)
Lemma touches_monitor (h : hunter) (ws : list world) (last_files : gset string)
    (p : string) (ev : event) :
  ev ∈ snd (monitor_from h ws last_files) → touches p ev = true →
  ∃ w, w ∈ ws ∧ ev ∈ check_events h w p.
Proof.
  revert last_files. induction ws as [|w ws IH]; intros last_files Hin Ht.
  { by apply elem_of_nil in Hin. }
  simpl in Hin. destruct (is_running w); [|by apply elem_of_nil in Hin].
  rewrite pass_eq in Hin.
  assert (Hscan : ev ∈ scan_events h w last_files ++ [EvSleep] →
                  ∃ w0, w0 ∈ w :: ws ∧ ev ∈ check_events h w0 p).
  { intros [Hs|Hs]%elem_of_app.
    - exists w. split; [apply elem_of_cons; by left|].
      by eapply touches_scan.
    - apply list_elem_of_singleton in Hs as ->. discriminate. }
  destruct (sleep_cancelled w); [by apply Hscan|].
  unfold after in Hin. simpl in Hin.
  apply elem_of_app in Hin as [Hin|Hin]; [by apply Hscan|].
  destruct (IH _ Hin Ht) as (w0 & Hw0 & Hev).
  exists w0. split; [apply elem_of_cons; by right|done].
Qed.

(** A file of [last_files] that stays in the snapshots is left alone:
    no size test, no read, no analysis, no callback. *)
Lemma monitor_untouched (h : hunter) (ws : list world) (last_files : gset string)
    (p : string) (ev : event) :
  p ∈ last_files → Forall (λ w, p ∈ snapshot w) ws →
  ev ∈ snd (monitor_from h ws last_files) → touches p ev = false.
Proof.
  revert last_files. induction ws as [|w ws IH]; intros last_files Hp Hall Hin.
  { by apply elem_of_nil in Hin. }
  apply Forall_cons in Hall as [Hw Hall].
  simpl in Hin. destruct (is_running w); [|by apply elem_of_nil in Hin].
  rewrite pass_eq in Hin.
  assert (Hscan : ev ∈ scan_events h w last_files ++ [EvSleep] → touches p ev = false).
  { intros [Hs|Hs]%elem_of_app.
    - destruct (touches p ev) eqn:Ht; [|done].
      by destruct (touches_scan _ _ _ _ _ Hs Ht) as (_ & Hnot & _).
    - by apply list_elem_of_singleton in Hs as ->. }
  destruct (sleep_cancelled w); [by apply Hscan|].
  unfold after in Hin. simpl in Hin.
  apply elem_of_app in Hin as [Hin|Hin]; [by apply Hscan|].
  by eapply IH.
Qed.

(** While nobody stops it, the loop goes on: after any number of passes it
    is back at its head. No exception ends it, whatever the collaborators do. *)
Lemma monitor_alive (h : hunter) (ws : list world) (last_files : gset string) :
  undisturbed ws →
  fst (monitor_from h ws last_files) = AtLoopHead (last_snapshot ws last_files).
Proof.
  revert last_files. induction ws as [|w ws IH]; intros last_files Hall; [done|].
  apply Forall_cons in Hall as [[Hrun Hsleep] Hall].
  rewrite monitor_from_cons by done. unfold after. simpl. by apply IH.
Qed.

(** A cancellation ends the task at its sleep. *)
Lemma cancelled_pass_ends (h : hunter) (w : world) (last_files : gset string) :
  sleep_cancelled w = true → fst (pass h w last_files) = Break.
Proof. intros Hc. rewrite pass_eq, Hc. reflexivity. Qed.

(** The service's failure message is read as a report of potential bugs;
    the message of an empty answer is not. *)
Lemma classify_service_error (e : string) :
  classify ("Error during analysis: " +:+ e) = Unknown.
Proof. unfold classify. rewrite PyFacts.lower_app. reflexivity. Qed.

Lemma classify_service_mute : classify "Failed to analyze code" = Inconclusive.
Proof. reflexivity. Qed.

(** ** The callback *)

(** The calls to the callback for a file that passes both filters: one
    call, with the report, when the report is read as [BugsFound] or
    [Unknown]; none otherwise. *)
Lemma callbacks_check (h : hunter) (w : world) (p : string) (f : callback)
    (size : Z) (code : string) :
  on_bugs_found h = Some f →
  getsize w p = Returns size → size ≤ 50000 →
  read_text w p = Returns code → 50 ≤ Py.len code →
  callbacks (trace (_check_file h w p))
  = let report := tool_output (result_of p (generate w (prompt_of p code))) in
    match classify report with
    | BugsFound | Unknown => [(p, report)]
    | NoBugs | Inconclusive => []
    end.
Proof.
  intros Hcb Hsize Hle Hread Hlen.
  rewrite check_file_eq. unfold trace, check_events. simpl.
  rewrite Hsize, Hread.
  rewrite (proj2 (Z.ltb_ge _ _)) by lia. rewrite (proj2 (Z.ltb_ge _ _)) by lia.
  unfold verdict_events, notify_events. rewrite Hcb.
  destruct (generate w (prompt_of p code)) as [[|[t|n] l]|e]; simpl;
    try match goal with |- context [classify ?r] => destruct (classify r) end;
    try reflexivity;
    match goal with |- context [f p ?r] => destruct (f p r) end; reflexivity.
Qed.

(** Nothing is reported for a file when no callback is registered. *)
Lemma callbacks_unregistered (h : hunter) (w : world) (p : string) :
  on_bugs_found h = None → callbacks (trace (_check_file h w p)) = [].
Proof.
  intros Hcb. rewrite check_file_eq. unfold trace, check_events. simpl.
  unfold verdict_events, notify_events. rewrite Hcb.
  destruct (getsize w p) as [size|e]; [|reflexivity].
  destruct (50000 <? size); [reflexivity|].
  destruct (read_text w p) as [code|e]; [|reflexivity].
  destruct (Py.len code <? 50); [reflexivity|].
  destruct (generate w (prompt_of p code)) as [[|[t|n] l]|e]; simpl;
    try match goal with |- context [classify ?r] => destruct (classify r) end;
    reflexivity.
Qed.

(** ** The verdict protocol *)

Section Verdicts.
Import Py PyFacts.

(** C4. A report that starts with the marker [bugs_found], in any casing,
    is classified [BugsFound]; and when the analysis of a file that passes
    both filters produces such a report, the registered callback is called
    exactly once, with the path of the file and the text of the report. *)
Theorem bugs_found_marker_notifies_once (marker rest : string) :
  lower marker = "bugs_found" →
  classify (marker +:+ rest) = BugsFound ∧
  ∀ (h : hunter) (w : world) (p : string) (f : callback) (size : Z)
    (code : string) (others : list content),
    on_bugs_found h = Some f →
    getsize w p = Returns size → size ≤ 50000 →
    read_text w p = Returns code → 50 ≤ len code →
    generate w (prompt_of p code) = Returns (TextResult (marker +:+ rest) :: others) →
    callbacks (trace (_check_file h w p)) = [(p, marker +:+ rest)].
Proof.
  intros Hmarker.
  assert (Hc : classify (marker +:+ rest) = BugsFound).
  { unfold classify. rewrite lower_app, Hmarker. reflexivity. }
  split; [exact Hc|].
  intros h w p f size code others Hcb Hsize Hle Hread Hlen Hgen.
  erewrite callbacks_check by eassumption.
  rewrite Hgen. simpl. rewrite Hc. reflexivity.
Qed.

Lemma bugs_found_marker_witness :
  classify "BUGS_FOUND: off-by-one at line 3" = BugsFound ∧
  callbacks (trace (_check_file watched service_up "/ws/a.py"))
  = [("/ws/a.py", "BUGS_FOUND: off-by-one at line 3")].
Proof.
  destruct (bugs_found_marker_notifies_once "BUGS_FOUND" ": off-by-one at line 3" eq_refl)
    as [Hc Hn].
  split; [exact Hc|].
  apply (Hn watched service_up "/ws/a.py" recorder 100 demo_code []);
    try reflexivity; by vm_compute.
Defined.

(** C5. A report that starts with neither marker and holds the word
    [error] somewhere, in any casing, is classified [Unknown]; and when the
    analysis of a file that passes both filters produces such a report, the
    registered callback is called for that file, as it is for [BugsFound]. *)
Theorem error_word_notifies (before word rest : string) :
  lower word = "error" →
  startswith (lower (before +:+ word +:+ rest)) "bugs_found" = false →
  startswith (lower (before +:+ word +:+ rest)) "no_bugs" = false →
  classify (before +:+ word +:+ rest) = Unknown ∧
  ∀ (h : hunter) (w : world) (p : string) (f : callback) (size : Z)
    (code : string) (others : list content),
    on_bugs_found h = Some f →
    getsize w p = Returns size → size ≤ 50000 →
    read_text w p = Returns code → 50 ≤ len code →
    generate w (prompt_of p code)
    = Returns (TextResult (before +:+ word +:+ rest) :: others) →
    callbacks (trace (_check_file h w p)) = [(p, before +:+ word +:+ rest)].
Proof.
  intros Hword Hbugs Hnone.
  assert (Hc : classify (before +:+ word +:+ rest) = Unknown).
  { unfold classify. rewrite Hbugs, Hnone.
    unfold any_indicator.
    rewrite (existsb_contains bug_indicators "error").
    - reflexivity.
    - apply elem_of_cons. by left.
    - rewrite !lower_app, Hword. apply contains_app. }
  split; [exact Hc|].
  intros h w p f size code others Hcb Hsize Hle Hread Hlen Hgen.
  erewrite callbacks_check by eassumption.
  rewrite Hgen. simpl. rewrite Hc. reflexivity.
Qed.

Lemma error_word_witness :
  classify "The call raises a TypeError when xs is empty" = Unknown ∧
  callbacks (trace (_check_file watched
    (demo_world demo_walk 100 (Returns demo_code)
       (Returns [TextResult "The call raises a TypeError when xs is empty"]))
    "/ws/a.py"))
  = [("/ws/a.py", "The call raises a TypeError when xs is empty")].
Proof.
  destruct (error_word_notifies "The call raises a Type" "Error" " when xs is empty"
              eq_refl eq_refl eq_refl) as [Hc Hn].
  split; [exact Hc|].
  apply (Hn watched _ "/ws/a.py" recorder 100 demo_code []);
    try reflexivity; by vm_compute.
Defined.

(** C6. A report that starts with the marker [no_bugs], in any casing, is
    classified [NoBugs] and the callback is not called for the file, although
    the report holds the indicator word [bug]: the markers are tested before
    the indicator words are looked for. *)
Theorem no_bugs_marker_is_silent (marker rest : string) :
  lower marker = "no_bugs" →
  classify (marker +:+ rest) = NoBugs ∧
  contains "bug" (lower (marker +:+ rest)) = true ∧
  any_indicator (lower (marker +:+ rest)) = true ∧
  ∀ (h : hunter) (w : world) (p : string) (size : Z) (code : string)
    (others : list content),
    getsize w p = Returns size → size ≤ 50000 →
    read_text w p = Returns code → 50 ≤ len code →
    generate w (prompt_of p code) = Returns (TextResult (marker +:+ rest) :: others) →
    callbacks (trace (_check_file h w p)) = [].
Proof.
  intros Hmarker.
  assert (Hc : classify (marker +:+ rest) = NoBugs).
  { unfold classify. rewrite lower_app, Hmarker. reflexivity. }
  assert (Hbug : contains "bug" (lower (marker +:+ rest)) = true).
  { rewrite lower_app, Hmarker.
    change ("no_bugs" +:+ lower rest) with ("no_" +:+ "bug" +:+ ("s" +:+ lower rest)).
    apply contains_app. }
  split; [exact Hc|]. split; [exact Hbug|]. split.
  - unfold any_indicator. apply (existsb_contains bug_indicators "bug"); [|exact Hbug].
    apply elem_of_cons. right. apply elem_of_cons. by left.
  - intros h w p size code others Hsize Hle Hread Hlen Hgen.
    destruct (on_bugs_found h) as [f|] eqn:Hcb; [|by apply callbacks_unregistered].
    erewrite callbacks_check by eassumption.
    rewrite Hgen. simpl. rewrite Hc. reflexivity.
Qed.

Lemma no_bugs_marker_witness :
  classify "No_Bugs: nothing to fix" = NoBugs ∧
  contains "bug" (lower "No_Bugs: nothing to fix") = true ∧
  callbacks (trace (_check_file watched
    (demo_world demo_walk 100 (Returns demo_code)
       (Returns [TextResult "No_Bugs: nothing to fix"]))
    "/ws/a.py")) = [].
Proof.
  destruct (no_bugs_marker_is_silent "No_Bugs" ": nothing to fix" eq_refl)
    as (Hc & Hbug & _ & Hn).
  split; [exact Hc|]. split; [exact Hbug|].
  apply (Hn watched _ "/ws/a.py" 100 demo_code []); try reflexivity; by vm_compute.
Defined.

End Verdicts.

(** ** The filters and the observed files *)

(** C7. A file larger than the threshold of 50000 bytes is never handed to
    the analyzer, whatever it holds: in every pass [_check_file] returns
    right after the size test, so no run of the loop calls [run_impl] on it. *)
Theorem oversized_file_never_analysed (h : hunter) (ws : list world)
    (last_files : gset string) (p : string) :
  Forall (λ w, ∃ size, getsize w p = Returns size ∧ 50000 < size) ws →
  (∀ w, w ∈ ws → trace (_check_file h w p) = [EvGetSize p]) ∧
  (∀ ev, ev ∈ snd (monitor_from h ws last_files) → analysed p ev = false).
Proof.
  intros Hbig. split.
  - intros w Hw. rewrite Forall_forall in Hbig.
    destruct (Hbig w Hw) as (size & Hsize & Hlt).
    rewrite check_file_eq. unfold trace, check_events. simpl.
    rewrite Hsize, (proj2 (Z.ltb_lt _ _)) by lia. reflexivity.
  - intros ev Hin. destruct (analysed p ev) eqn:Ha; [|reflexivity].
    destruct (touches_monitor h ws last_files p ev Hin (analysed_touches _ _ Ha))
      as (w & Hw & Hev).
    destruct (analysed_check h w p ev Hev Ha) as (size & code & Hsize & Hle & _).
    rewrite Forall_forall in Hbig.
    destruct (Hbig w Hw) as (size' & Hsize' & Hlt).
    rewrite Hsize in Hsize'. injection Hsize' as ->. lia.
Qed.

Lemma oversized_file_witness :
  (∀ w, w ∈ [big_file; big_file] → trace (_check_file watched w "/ws/a.py")
                                   = [EvGetSize "/ws/a.py"]) ∧
  (∀ ev, ev ∈ snd (monitor_from watched [big_file; big_file] ∅) →
         analysed "/ws/a.py" ev = false).
Proof.
  apply (oversized_file_never_analysed watched [big_file; big_file] ∅ "/ws/a.py").
  assert (Hbig : ∃ size, getsize big_file "/ws/a.py" = Returns size ∧ 50000 < size)
    by (exists 60000; split; [reflexivity | lia]).
  constructor; [exact Hbig|]. constructor; [exact Hbig|]. constructor.
Defined.

(** C9. Two passes over a workspace whose snapshot does not change: the
    first pass leaves the snapshot as the observed set, the set of new
    files of the second pass is empty, and the second pass checks no file
    (it enumerates, then sleeps). *)
Theorem unchanged_workspace_no_new_files (h : hunter) (w1 w2 : world)
    (last_files : gset string) :
  is_running w1 = true → sleep_cancelled w1 = false → is_running w2 = true →
  snapshot w2 = snapshot w1 →
  ∃ seen,
    fst (pass h w1 last_files) = Next seen ∧
    snapshot w2 ∖ seen = ∅ ∧
    snd (pass h w2 seen) = enumeration_events w2 ++ [EvSleep] ∧
    snd (monitor_from h [w1; w2] last_files)
    = snd (pass h w1 last_files) ++ enumeration_events w2 ++ [EvSleep].
Proof.
  intros Hrun1 Hsleep1 Hrun2 Hsame.
  assert (Hempty : snapshot w2 ∖ snapshot w1 = ∅).
  { rewrite Hsame. apply difference_diag_L. }
  assert (Hscan : scan_events h w2 (snapshot w1) = enumeration_events w2).
  { unfold scan_events. rewrite Hempty.
    rewrite bool_decide_eq_false_2 by (intros Hne; by apply Hne).
    apply app_nil_r. }
  exists (snapshot w1). split; [|split; [exact Hempty|split]].
  - rewrite pass_eq, Hsleep1. reflexivity.
  - rewrite pass_eq, Hscan. reflexivity.
  - rewrite monitor_from_cons by done. rewrite pass_eq. unfold after.
    cbn [fst snd monitor_from]. rewrite Hrun2, pass_eq, Hscan.
    destruct (sleep_cancelled w2); cbn [fst snd after]; by rewrite ?app_nil_r.
Qed.

Lemma unchanged_workspace_witness :
  ∃ seen,
    fst (pass watched service_up ∅) = Next seen ∧
    snapshot service_up ∖ seen = ∅ ∧
    snd (pass watched service_up seen) = enumeration_events service_up ++ [EvSleep] ∧
    snd (monitor_from watched [service_up; service_up] ∅)
    = snd (pass watched service_up ∅) ++ enumeration_events service_up ++ [EvSleep].
Proof.
  apply (unchanged_workspace_no_new_files watched service_up service_up ∅);
    reflexivity.
Defined.

(** C10 as stated fails: [a.py] is in the workspace all along and cannot
    be read in the first pass. In the second pass the walk of the workspace
    raises before it yields the file, so the observed set becomes empty;
    in the third pass the file is new again and is tried a second time,
    and once it can be read it is analysed and reported. *)
Lemma unreadable_file_retried_after_failed_walk :
  read_text unreadable "/ws/a.py" = Raises "[Errno 13] Permission denied" ∧
  getsize walk_down "/ws/a.py" = Returns 100 ∧
  size_checks (snd (monitor_from watched [unreadable; walk_down; unreadable] ∅))
  = ["/ws/a.py"; "/ws/a.py"] ∧
  callbacks (snd (monitor_from watched [unreadable; walk_down; service_up] ∅))
  = [("/ws/a.py", "BUGS_FOUND: off-by-one at line 3")].
Proof.
  split; [reflexivity|]. split; [reflexivity|]. split; by vm_compute.
Qed.

(** C10, amended. A file whose reading raises: the exception is caught and
    logged by [_check_file], the file is not handed to the analyzer in that
    pass, the pass ends normally with the file in the observed set, and in
    the passes that follow the file is not tried again (no size test, no
    read, no analysis, no callback) as long as every snapshot holds it. *)
Theorem unreadable_file_never_retried (h : hunter) (w : world) (ws : list world)
    (last_files : gset string) (p : string) (size : Z) (e : string) :
  p ∈ snapshot w → p ∉ last_files →
  getsize w p = Returns size → size ≤ 50000 →
  read_text w p = Raises e →
  sleep_cancelled w = false →
  Forall (λ w', p ∈ snapshot w') ws →
  ∃ seen,
    fst (pass h w last_files) = Next seen ∧
    p ∈ seen ∧
    EvLog ERROR ("Error checking file " +:+ p +:+ ": " +:+ e) ∈ snd (pass h w last_files) ∧
    (∀ ev, ev ∈ snd (pass h w last_files) → analysed p ev = false) ∧
    (∀ ev, ev ∈ snd (monitor_from h ws seen) → touches p ev = false).
Proof.
  intros Hp Hnew Hsize Hle Hread Hsleep Hstays.
  exists (snapshot w). rewrite pass_eq, Hsleep. simpl.
  split; [reflexivity|]. split; [exact Hp|]. split; [|split].
  - apply elem_of_app. left.
    apply (scan_checks_new h w last_files p); [done..|].
    unfold check_events. rewrite Hsize, (proj2 (Z.ltb_ge _ _)), Hread by lia.
    apply elem_of_cons. right. apply elem_of_cons. right. apply elem_of_cons. by left.
  - intros ev [Hin|Hin]%elem_of_app.
    + destruct (analysed p ev) eqn:Ha; [|reflexivity].
      destruct (touches_scan h w last_files p ev Hin (analysed_touches _ _ Ha))
        as (_ & _ & Hev).
      destruct (analysed_check h w p ev Hev Ha) as (s' & c' & _ & _ & Hr & _).
      congruence.
    + by apply list_elem_of_singleton in Hin as ->.
  - intros ev Hin. by eapply monitor_untouched.
Qed.

Lemma unreadable_file_witness :
  ∃ seen,
    fst (pass watched unreadable ∅) = Next seen ∧
    "/ws/a.py" ∈ seen ∧
    EvLog ERROR ("Error checking file " +:+ "/ws/a.py" +:+ ": "
                 +:+ "[Errno 13] Permission denied")
      ∈ snd (pass watched unreadable ∅) ∧
    (∀ ev, ev ∈ snd (pass watched unreadable ∅) → analysed "/ws/a.py" ev = false) ∧
    (∀ ev, ev ∈ snd (monitor_from watched [service_up; service_up] seen) →
           touches "/ws/a.py" ev = false).
Proof.
  apply (unreadable_file_never_retried watched unreadable [service_up; service_up] ∅
           "/ws/a.py" 100 "[Errno 13] Permission denied");
    try reflexivity; try lia;
    lazymatch goal with
    | |- _ ∉ ∅ => apply not_elem_of_empty
    | |- _ ∈ _ => apply (bool_decide_unpack _); by vm_compute
    | |- Forall _ _ =>
        assert (Hin : "/ws/a.py" ∈ snapshot service_up)
          by (apply (bool_decide_unpack _); by vm_compute);
        constructor; [exact Hin|]; constructor; [exact Hin|]; constructor
    end.
Defined.

(** C3 as stated fails: [a.py] has 60,000 bytes and stays as it is through
    three passes; its size is asked in the first pass only. *)
Lemma skipped_file_checked_once :
  snd (_monitor_loop watched [big_file; big_file; big_file])
  = [EvLog INFO "Found 1 new Python files"; EvGetSize "/ws/a.py";
     EvSleep; EvSleep; EvSleep].
Proof. by vm_compute. Qed.

(** C3, amended. A file at which [_check_file] returns by one of its two
    filters is kept in no memory of its own, but the pass ends with the
    whole snapshot, this file included, as the observed set: the file is
    not handed to the analyzer in that pass, and in the passes that follow
    it is not checked again (no size test, no read) as long as it stays in
    the snapshots, whatever its size and content have become. *)
Theorem skipped_file_not_rechecked (h : hunter) (w : world) (ws : list world)
    (last_files : gset string) (p : string) :
  p ∈ snapshot w → p ∉ last_files →
  skipped w p →
  sleep_cancelled w = false →
  Forall (λ w', p ∈ snapshot w') ws →
  ∃ seen,
    fst (pass h w last_files) = Next seen ∧
    p ∈ seen ∧
    EvGetSize p ∈ snd (pass h w last_files) ∧
    (∀ ev, ev ∈ snd (pass h w last_files) → analysed p ev = false) ∧
    (∀ ev, ev ∈ snd (monitor_from h ws seen) → touches p ev = false).
Proof.
  intros Hp Hnew Hskip Hsleep Hstays.
  exists (snapshot w). rewrite pass_eq, Hsleep. simpl.
  split; [reflexivity|]. split; [exact Hp|]. split; [|split].
  - apply elem_of_app. left.
    apply (scan_checks_new h w last_files p); [done..|].
    unfold check_events.
    destruct Hskip as [(size & Hsize & Hlt)|(size & code & Hsize & Hle & Hread & Hlen)];
      rewrite Hsize.
    + rewrite (proj2 (Z.ltb_lt _ _)) by lia. apply elem_of_cons. by left.
    + rewrite (proj2 (Z.ltb_ge _ _)), Hread, (proj2 (Z.ltb_lt _ _)) by lia.
      apply elem_of_cons. by left.
  - intros ev [Hin|Hin]%elem_of_app.
    + destruct (analysed p ev) eqn:Ha; [|reflexivity].
      destruct (touches_scan h w last_files p ev Hin (analysed_touches _ _ Ha))
        as (_ & _ & Hev).
      destruct (analysed_check h w p ev Hev Ha) as (s' & c' & Hs & Hle' & Hr & Hlen').
      destruct Hskip as [(size & Hsize & Hlt)|(size & code & Hsize & Hle & Hread & Hlen)].
      * rewrite Hs in Hsize. injection Hsize as ->. lia.
      * rewrite Hr in Hread. injection Hread as ->. lia.
    + by apply list_elem_of_singleton in Hin as ->.
  - intros ev Hin. by eapply monitor_untouched.
Qed.

Lemma skipped_file_witness :
  ∃ seen,
    fst (pass watched big_file ∅) = Next seen ∧
    "/ws/a.py" ∈ seen ∧
    EvGetSize "/ws/a.py" ∈ snd (pass watched big_file ∅) ∧
    (∀ ev, ev ∈ snd (pass watched big_file ∅) → analysed "/ws/a.py" ev = false) ∧
    (∀ ev, ev ∈ snd (monitor_from watched [service_up; big_file] seen) →
           touches "/ws/a.py" ev = false).
Proof.
  apply (skipped_file_not_rechecked watched big_file [service_up; big_file] ∅ "/ws/a.py");
    try reflexivity;
    lazymatch goal with
    | |- _ ∉ ∅ => apply not_elem_of_empty
    | |- _ ∈ _ => apply (bool_decide_unpack _); by vm_compute
    | |- skipped _ _ => left; exists 60000; split; [reflexivity | lia]
    | |- Forall _ _ =>
        constructor; [apply (bool_decide_unpack _); by vm_compute|];
        constructor; [apply (bool_decide_unpack _); by vm_compute|];
        constructor
    end.
Defined.

(** C2 as stated fails: [a.py] has been seen; in the next pass the walk of
    the workspace raises at once. The pass goes on with an empty snapshot
    and leaves it as the observed set, and in the pass after that [a.py] is
    new again: it is analysed and reported a second time. Had the walk
    not failed, nothing would have been reported. *)
Lemma enumeration_failure_forgets_seen_files :
  failure (os_walk walk_down) = Some "[Errno 5] Input/output error" ∧
  fst (pass watched walk_down {[ "/ws/a.py" ]}) = Next ∅ ∧
  callbacks (snd (monitor_from watched [walk_down; service_up] {[ "/ws/a.py" ]}))
  = [("/ws/a.py", "BUGS_FOUND: off-by-one at line 3")] ∧
  callbacks (snd (monitor_from watched [service_up; service_up] {[ "/ws/a.py" ]}))
  = [].
Proof.
  split; [reflexivity|]. split; [|split].
  - rewrite pass_eq. reflexivity.
  - by vm_compute.
  - by vm_compute.
Qed.

(** C2, amended. When the walk of the workspace raises, the exception is
    caught and logged inside [_get_python_files], which returns the paths
    collected before the failure. The pass goes on with this partial
    snapshot: each of its new paths is checked, and the pass ends with the
    partial snapshot as the observed set. *)
Theorem enumeration_failure_keeps_partial_snapshot (h : hunter) (w : world)
    (last_files : gset string) (e : string) :
  failure (os_walk w) = Some e →
  sleep_cancelled w = false →
  fst (pass h w last_files) = Next (snapshot w) ∧
  EvLog ERROR ("Error getting Python files: " +:+ e) ∈ snd (pass h w last_files) ∧
  (∀ p, p ∈ snapshot w → p ∉ last_files → EvGetSize p ∈ snd (pass h w last_files)).
Proof.
  intros Hfail Hsleep. rewrite pass_eq, Hsleep. simpl. split; [reflexivity|]. split.
  - apply elem_of_app. left. unfold scan_events, enumeration_events. rewrite Hfail.
    apply elem_of_cons. by left.
  - intros p Hp Hnew. apply elem_of_app. left.
    apply (scan_checks_new h w last_files p); [done..|].
    unfold check_events.
    destruct (getsize w p) as [size|e']; [|apply elem_of_cons; by left].
    destruct (50000 <? size); [apply elem_of_cons; by left|].
    destruct (read_text w p) as [code|e']; [|apply elem_of_cons; by left].
    destruct (Py.len code <? 50); apply elem_of_cons; by left.
Qed.

Lemma enumeration_failure_witness :
  fst (pass watched walk_cut ∅) = Next (snapshot walk_cut) ∧
  EvLog ERROR ("Error getting Python files: " +:+ "[Errno 5] Input/output error")
    ∈ snd (pass watched walk_cut ∅) ∧
  (∀ p, p ∈ snapshot walk_cut → p ∉ (∅ : gset string) →
        EvGetSize p ∈ snd (pass watched walk_cut ∅)).
Proof.
  apply (enumeration_failure_keeps_partial_snapshot watched walk_cut ∅
           "[Errno 5] Input/output error"); reflexivity.
Defined.

(** C1 fails on the code. The client raises on every call, and three passes
    go by: the loop is still at its head, but the callback has been called
    for [a.py], with the message of the failure as its report: the text
    [run_impl] builds for a failed call starts with the indicator word
    [error]. The other failure of [run_impl], an empty answer, is not
    reported. *)
Theorem service_failure_fires_callback :
  fst (_monitor_loop watched [service_down; service_down; service_down])
  = AtLoopHead (snapshot service_down) ∧
  callbacks (snd (_monitor_loop watched [service_down; service_down; service_down]))
  = [("/ws/a.py", "Error during analysis: connection refused")] ∧
  callbacks (snd (_monitor_loop watched [service_mute; service_mute; service_mute]))
  = [].
Proof.
  split; [|split].
  - unfold _monitor_loop. rewrite monitor_alive; [reflexivity|].
    repeat (constructor; [split; reflexivity|]). constructor.
  - by vm_compute.
  - by vm_compute.
Qed.

(** Whatever the message of the exception, a failed call of the client is
    reported to a registered callback. *)
Lemma service_failure_notifies (h : hunter) (w : world) (p : string) (f : callback)
    (size : Z) (code e : string) :
  on_bugs_found h = Some f →
  getsize w p = Returns size → size ≤ 50000 →
  read_text w p = Returns code → 50 ≤ Py.len code →
  generate w (prompt_of p code) = Raises e →
  callbacks (trace (_check_file h w p)) = [(p, "Error during analysis: " +:+ e)].
Proof.
  intros Hcb Hsize Hle Hread Hlen Hgen.
  erewrite callbacks_check by eassumption.
  rewrite Hgen. cbn [result_of tool_output]. rewrite classify_service_error. reflexivity.
Qed.

(** ** [start] and [stop] *)

Module LifecycleFacts.
Import Lifecycle.

Lemma consistent_init : consistent init.
Proof. reflexivity. Qed.

Lemma consistent_start (s : sched) : consistent s → consistent (start s).
Proof.
  unfold consistent, start. destruct (running s) eqn:Hrun.
  - by rewrite Hrun.
  - intros Hnone. simpl. exists (created s). split; [done|].
    rewrite Hnone. apply (left_id_L ∅ (∪)).
Qed.

Lemma consistent_stop (s : sched) : consistent s → consistent (stop s).
Proof.
  unfold consistent, stop. simpl. destruct (running s).
  - intros (t & -> & ->). apply difference_diag_L.
  - intros ->. destruct (task s); [|done].
    apply elem_of_equiv_empty_L. intros x [Hx _]%elem_of_difference.
    by apply not_elem_of_empty in Hx.
Qed.

Lemma run_snoc (ops : list op) (o : op) : run (ops ++ [o]) = step (run ops) o.
Proof. unfold run. apply foldl_snoc. Qed.

Lemma consistent_run (ops : list op) : consistent (run ops).
Proof.
  induction ops as [|o ops IH] using rev_ind; [apply consistent_init|].
  rewrite run_snoc. destruct o; [by apply consistent_start|by apply consistent_stop].
Qed.

(** C8. [start] on a hunter that is running changes nothing: no task is
    created. Hence after any sequence of calls to [start] and [stop] at most
    one monitoring task is not done, and a second [start] in succession
    leaves the state of the first. *)
Theorem start_when_running_is_noop :
  (∀ s, running s = true → start s = s) ∧
  (∀ ops, (size (alive (run ops)) ≤ 1)%nat) ∧
  (∀ ops, run (ops ++ [Start; Start]) = run (ops ++ [Start])
          ∧ running (run (ops ++ [Start])) = true).
Proof.
  split; [|split].
  - intros s Hrun. unfold start. by rewrite Hrun.
  - intros ops. pose proof (consistent_run ops) as Hc. unfold consistent in Hc.
    destruct (running (run ops)).
    + destruct Hc as (t & _ & ->). by rewrite size_singleton.
    + rewrite Hc, size_empty. lia.
  - intros ops.
    assert (Hrun : running (run (ops ++ [Start])) = true).
    { rewrite run_snoc. simpl. unfold start. by destruct (running (run ops)) eqn:Hr. }
    split; [|exact Hrun].
    change [Start; Start] with ([Start] ++ [Start]).
    rewrite app_assoc, run_snoc. simpl. unfold start at 1. by rewrite Hrun.
Qed.

(** Two calls to [start] create one task; [stop] ends it, and a later
    [start] creates the next one. *)
Example start_start : run [Start; Start]
  = {| running := true; task := Some 0%nat; created := 1; alive := {[ 0%nat ]} |}.
Proof. by vm_compute. Qed.

Example start_stop_start : elements (alive (run [Start; Start; Stop; Start])) = [1%nat].
Proof. by vm_compute. Qed.

End LifecycleFacts.

(** * Further properties *)

(** ** More on strings *)

Module PyMore.
Import Py PyFacts.

Lemma app_assoc_s (a b c : string) : (a +:+ b) +:+ c = a +:+ (b +:+ c).
Proof.
  induction a as [|x a IH]; [reflexivity|].
  rewrite !app_cons, IH. reflexivity.
Qed.

Lemma contains_app_r (sub a s : string) :
  contains sub s = true → contains sub (a +:+ s) = true.
Proof.
  intros H. induction a as [|c a IH]; [exact H|].
  rewrite app_cons. by apply contains_later.
Qed.

Lemma contains_app_l (sub b : string) : contains sub (sub +:+ b) = true.
Proof. apply contains_here, startswith_app. Qed.

Lemma lower_char_idemp (c : ascii) : lower_char (lower_char c) = lower_char c.
Proof.
  unfold lower_char.
  destruct ((65 <=? nat_of_ascii c)%nat && (nat_of_ascii c <=? 90)%nat) eqn:Hc.
  - apply andb_true_iff in Hc as [H1%Nat.leb_le H2%Nat.leb_le].
    rewrite nat_ascii_embedding by lia.
    destruct ((65 <=? nat_of_ascii c + 32)%nat && (nat_of_ascii c + 32 <=? 90)%nat) eqn:Hd;
      [|reflexivity].
    apply andb_true_iff in Hd as [_ H4%Nat.leb_le]. lia.
  - by rewrite Hc.
Qed.

Lemma lower_idemp (s : string) : lower (lower s) = lower s.
Proof.
  induction s as [|c s IH]; [reflexivity|].
  simpl. by rewrite lower_char_idemp, IH.
Qed.

Lemma length_app (a b : string) :
  String.length (a +:+ b) = (String.length a + String.length b)%nat.
Proof.
  induction a as [|c a IH]; [reflexivity|].
  rewrite app_cons. simpl. by rewrite IH.
Qed.

Lemma substring_skip (a b : string) (j k : nat) :
  String.substring (String.length a + j) k (a +:+ b) = String.substring j k b.
Proof.
  induction a as [|c a IH]; [reflexivity|].
  rewrite app_cons. simpl. exact IH.
Qed.

Lemma endswith_app (a b suffix : string) :
  endswith b suffix = true → endswith (a +:+ b) suffix = true.
Proof.
  unfold endswith. intros [Hk Heq]%andb_true_iff.
  apply Nat.leb_le in Hk. rewrite length_app.
  apply andb_true_iff. split; [apply Nat.leb_le; lia|].
  replace (String.length a + String.length b - String.length suffix)%nat
    with (String.length a + (String.length b - String.length suffix))%nat by lia.
  by rewrite substring_skip.
Qed.

(** [os.path.join] keeps the suffix of its second argument. *)
Lemma endswith_join (root file suffix : string) :
  endswith file suffix = true → endswith (join root file) suffix = true.
Proof.
  intros H. unfold join.
  destruct (startswith file "/"); [exact H|].
  destruct (String.eqb root "" || endswith root "/").
  - by apply endswith_app.
  - by do 2 apply endswith_app.
Qed.

End PyMore.

(** ** The snapshot *)

Lemma elem_of_add_files (acc : gset string) (root : string) (dirs files : list string)
    (p : string) :
  p ∈ add_files acc (root, dirs, files) ↔
  p ∈ acc ∨ ∃ file, file ∈ files ∧ Py.endswith file ".py" = true ∧ p = Py.join root file.
Proof.
  unfold add_files. revert acc. induction files as [|f files IH]; intros acc; simpl.
  - split; [by left|]. intros [H|(file & []%elem_of_nil & _)]. exact H.
  - rewrite IH. destruct (Py.endswith f ".py") eqn:Hf.
    + rewrite elem_of_union, elem_of_singleton. split.
      * intros [[H| ->]|(file & Hin & Hpy & Hp)]; [by left|right..].
        -- exists f. split; [apply elem_of_cons; by left|done].
        -- exists file. split; [apply elem_of_cons; by right|done].
      * intros [H|(file & [->|Hin]%elem_of_cons & Hpy & Hp)].
        -- left. by left.
        -- left. by right.
        -- right. by exists file.
    + split.
      * intros [H|(file & Hin & Hpy & Hp)]; [by left|right].
        exists file. split; [apply elem_of_cons; by right|done].
      * intros [H|(file & [->|Hin]%elem_of_cons & Hpy & Hp)]; [by left|congruence|].
        right. by exists file.
Qed.

Lemma elem_of_foldl_add_files (entries : list walk_entry) (acc : gset string) (p : string) :
  p ∈ foldl add_files acc entries ↔
  p ∈ acc ∨ ∃ root dirs files file,
              (root, dirs, files) ∈ entries ∧ file ∈ files ∧
              Py.endswith file ".py" = true ∧ p = Py.join root file.
Proof.
  revert acc. induction entries as [|[[root dirs] files] entries IH]; intros acc; cbn [foldl].
  - split; [by left|]. intros [H|(r & d & fs & f & []%elem_of_nil & _)]. exact H.
  - rewrite IH, elem_of_add_files. split.
    + intros [[H|(file & Hin & Hpy & Hp)]|(r & d & fs & f & He & Hin & Hpy & Hp)].
      * by left.
      * right. exists root, dirs, files, file. split; [apply elem_of_cons; by left|done].
      * right. exists r, d, fs, f. split; [apply elem_of_cons; by right|done].
    + intros [H|(r & d & fs & f & [Heq|He]%elem_of_cons & Hin & Hpy & Hp)].
      * left. by left.
      * injection Heq as -> -> ->. left. right. by exists f.
      * right. by exists r, d, fs, f.
Qed.

(** ** Reading the size tests and the callbacks off a trace *)

Lemma size_checks_app (t1 t2 : list event) :
  size_checks (t1 ++ t2) = size_checks t1 ++ size_checks t2.
Proof. apply omap_app. Qed.

Lemma callbacks_app (t1 t2 : list event) :
  callbacks (t1 ++ t2) = callbacks t1 ++ callbacks t2.
Proof. apply omap_app. Qed.

Lemma elem_of_callbacks (t : list event) (p report : string) :
  (p, report) ∈ callbacks t ↔ EvCallback p report ∈ t.
Proof.
  unfold callbacks. rewrite list_elem_of_omap. split.
  - intros (ev & Hin & Hev). destruct ev; try discriminate.
    by injection Hev as -> ->.
  - intros Hin. by exists (EvCallback p report).
Qed.

(** [_check_file] asks for the size of its file, once, whatever follows. *)
Lemma size_checks_check (h : hunter) (w : world) (p : string) :
  size_checks (check_events h w p) = [p].
Proof.
  unfold check_events, run_impl_events, verdict_events, notify_events.
  destruct (getsize w p) as [size|e]; [|reflexivity].
  destruct (50000 <? size); [reflexivity|].
  destruct (read_text w p) as [code|e]; [|reflexivity].
  destruct (Py.len code <? 50); [reflexivity|].
  destruct (generate w (prompt_of p code)) as [[|[t|n] l]|e]; cbn [tool_output result_of];
    destruct (classify _); try reflexivity;
    destruct (on_bugs_found h) as [f|]; try reflexivity;
    match goal with |- context [f p ?r] => destruct (f p r) end; reflexivity.
Qed.

Lemma size_checks_concat (h : hunter) (w : world) (ps : list string) :
  size_checks (concat (check_events h w <$> ps)) = ps.
Proof.
  induction ps as [|p ps IH]; [reflexivity|].
  rewrite fmap_cons. cbn [concat]. by rewrite size_checks_app, size_checks_check, IH.
Qed.

Lemma size_checks_scan (h : hunter) (w : world) (last_files : gset string) :
  size_checks (scan_events h w last_files) = elements (snapshot w ∖ last_files).
Proof.
  unfold scan_events, enumeration_events. rewrite size_checks_app.
  replace (size_checks match failure (os_walk w) with
                       | Some e => [EvLog ERROR ("Error getting Python files: " +:+ e)]
                       | None => []
                       end) with (@nil string) by (by destruct (failure (os_walk w))).
  simpl. case_bool_decide as Hnew.
  - simpl. apply size_checks_concat.
  - by rewrite Hnew, elements_empty.
Qed.

(** Membership of a given event in a list that is written out. *)
Ltac in_cases_eq H :=
  repeat match type of H with
         | _ ∈ [] => by apply elem_of_nil in H
         | _ ∈ _ :: _ => apply elem_of_cons in H as [H|H]; [try discriminate|]
         | _ ∈ _ ++ _ => apply elem_of_app in H as [H|H]
         end.

(** A callback is called only from the two notifying branches. *)
Lemma callback_in_check (h : hunter) (w : world) (q p report : string) :
  EvCallback p report ∈ check_events h w q →
  q = p ∧ (classify report = BugsFound ∨ classify report = Unknown).
Proof.
  intros Hin.
  assert (q = p) as ->.
  { eapply touches_check; [exact Hin|]. simpl. by apply bool_decide_eq_true. }
  split; [reflexivity|].
  unfold check_events in Hin.
  destruct (getsize w p) as [size|e];
    [destruct (50000 <? size);
       [|destruct (read_text w p) as [code|e]; [destruct (Py.len code <? 50)|]]|];
    in_cases_eq Hin.
  - unfold run_impl_events in Hin. in_cases_eq Hin.
    destruct (generate _ _); in_cases_eq Hin.
  - unfold verdict_events, notify_events in Hin.
    destruct (classify (tool_output _)) eqn:Hc; in_cases_eq Hin;
      destruct (on_bugs_found h) as [f|]; in_cases_eq Hin.
    + injection Hin as ->. rewrite Hc. auto.
    + match type of Hin with context [f p ?r] => destruct (f p r) end; in_cases_eq Hin.
    + injection Hin as ->. rewrite Hc. auto.
    + match type of Hin with context [f p ?r] => destruct (f p r) end; in_cases_eq Hin.
Qed.

(** ** [run_impl] and the verdicts, further *)

Section Analyzer.
Import Py PyFacts PyMore.

(** X1. On an input with a [code] entry, [run_impl] returns, whatever the
    client does, after one call to the client. The prompt is built from the
    code and from the [file_path] entry, or from [unknown] when there is
    none. The output is the text of the first result when it is a text, and
    the message of a failure otherwise. *)
Theorem run_impl_returns (w : world) (tool_input : gmap string string) (code : string) :
  tool_input !! "code" = Some code →
  outcome (run_impl w tool_input)
  = Ok (result_of (default "unknown" (tool_input !! "file_path"))
          (generate w (prompt_of (default "unknown" (tool_input !! "file_path")) code))) ∧
  prompts (trace (run_impl w tool_input))
  = [prompt_of (default "unknown" (tool_input !! "file_path")) code].
Proof.
  intros Hcode. unfold run_impl. rewrite Hcode.
  destruct (generate w _) as [[|[t|n] l]|e] eqn:Hgen;
    unfold_m; simpl; rewrite Hgen; split; reflexivity.
Qed.

Lemma run_impl_returns_witness :
  outcome (run_impl service_up {[ "code" := "x = 1" ]})
  = Ok {| tool_output := "BUGS_FOUND: off-by-one at line 3";
          tool_result_message := "Bug analysis completed for unknown" |} ∧
  prompts (trace (run_impl service_up {[ "code" := "x = 1" ]}))
  = [prompt_of "unknown" "x = 1"].
Proof.
  exact (run_impl_returns service_up {[ "code" := "x = 1" ]} "x = 1" eq_refl).
Defined.

(** X2. On an input without a [code] entry, [run_impl] raises the
    [KeyError] of the lookup; this happens outside its [try], before the
    client is called. *)
Theorem run_impl_missing_code (w : world) (tool_input : gmap string string) :
  tool_input !! "code" = None →
  outcome (run_impl w tool_input) = Raise (Exception "'code'") ∧
  prompts (trace (run_impl w tool_input)) = [].
Proof.
  intros Hcode. unfold run_impl. rewrite Hcode. split; reflexivity.
Qed.

Lemma run_impl_missing_code_witness :
  outcome (run_impl service_up {[ "file_path" := "/ws/a.py" ]})
  = Raise (Exception "'code'") ∧
  prompts (trace (run_impl service_up {[ "file_path" := "/ws/a.py" ]})) = [].
Proof.
  exact (run_impl_missing_code service_up {[ "file_path" := "/ws/a.py" ]} eq_refl).
Defined.

(** X3. The prompt holds the path and the code as they are, and names both
    markers. *)
Theorem prompt_holds_path_and_code (file_path code : string) :
  contains file_path (prompt_of file_path code) = true ∧
  contains code (prompt_of file_path code) = true ∧
  contains "NO_BUGS" (prompt_of file_path code) = true ∧
  contains "BUGS_FOUND" (prompt_of file_path code) = true.
Proof.
  unfold prompt_of.
  repeat split; repeat first [apply contains_app_l | apply contains_app_r].
Qed.

(** X4. A report that starts with neither marker and holds none of the
    indicator words is classified [Inconclusive], and the callback is not
    called for the file. *)
Theorem inconclusive_is_silent (report : string) :
  startswith (lower report) "bugs_found" = false →
  startswith (lower report) "no_bugs" = false →
  any_indicator (lower report) = false →
  classify report = Inconclusive ∧
  ∀ (h : hunter) (w : world) (p : string) (size : Z) (code : string)
    (others : list content),
    getsize w p = Returns size → size ≤ 50000 →
    read_text w p = Returns code → 50 ≤ len code →
    generate w (prompt_of p code) = Returns (TextResult report :: others) →
    callbacks (trace (_check_file h w p)) = [].
Proof.
  intros Hbugs Hnone Hind.
  assert (Hc : classify report = Inconclusive).
  { unfold classify. by rewrite Hbugs, Hnone, Hind. }
  split; [exact Hc|].
  intros h w p size code others Hsize Hle Hread Hlen Hgen.
  destruct (on_bugs_found h) as [f|] eqn:Hcb; [|by apply callbacks_unregistered].
  erewrite callbacks_check by eassumption.
  rewrite Hgen. simpl. rewrite Hc. reflexivity.
Qed.

Lemma inconclusive_witness :
  classify "Looks fine to me." = Inconclusive ∧
  callbacks (trace (_check_file watched
    (demo_world demo_walk 100 (Returns demo_code)
       (Returns [TextResult "Looks fine to me."]))
    "/ws/a.py")) = [].
Proof.
  destruct (inconclusive_is_silent "Looks fine to me." eq_refl eq_refl eq_refl) as [Hc Hn].
  split; [exact Hc|].
  apply (Hn watched _ "/ws/a.py" 100 demo_code []); try reflexivity; by vm_compute.
Defined.

(** X5. The verdict does not depend on the casing of the report: two
    reports that differ by casing only get the same verdict, and so does
    the report put in lower case. *)
Theorem classify_ignores_case (a b : string) :
  lower a = lower b →
  classify a = classify b ∧ classify (lower a) = classify b.
Proof.
  intros H. unfold classify. by rewrite lower_idemp, H.
Qed.

Lemma classify_ignores_case_witness :
  classify "Bugs_Found: INDEX" = classify "bugs_found: index" ∧
  classify (lower "Bugs_Found: INDEX") = classify "bugs_found: index".
Proof. apply classify_ignores_case. reflexivity. Defined.

(** X6. An answer of the client that does not start with a text result
    (it is empty, or starts with a tool call) counts as a failed analysis:
    the output is a fixed message, which holds no marker and no indicator
    word, and the callback is not called. *)
Theorem non_text_answer_is_silent (h : hunter) (w : world) (p : string) (size : Z)
    (code : string) (answer : list content) :
  getsize w p = Returns size → size ≤ 50000 →
  read_text w p = Returns code → 50 ≤ len code →
  generate w (prompt_of p code) = Returns answer →
  (∀ text others, answer ≠ TextResult text :: others) →
  tool_output (result_of p (Returns answer)) = "Failed to analyze code" ∧
  callbacks (trace (_check_file h w p)) = [].
Proof.
  intros Hsize Hle Hread Hlen Hgen Hnot.
  assert (Hout : tool_output (result_of p (Returns answer)) = "Failed to analyze code").
  { destruct answer as [|[t|n] l]; try reflexivity. by destruct (Hnot t l). }
  split; [exact Hout|].
  destruct (on_bugs_found h) as [f|] eqn:Hcb; [|by apply callbacks_unregistered].
  erewrite callbacks_check by eassumption.
  rewrite Hgen. cbv zeta. rewrite Hout. reflexivity.
Qed.

Lemma non_text_answer_witness :
  tool_output (result_of "/ws/a.py" (Returns [ToolCall "bash"; TextResult "BUGS_FOUND"]))
  = "Failed to analyze code" ∧
  callbacks (trace (_check_file watched
    (demo_world demo_walk 100 (Returns demo_code)
       (Returns [ToolCall "bash"; TextResult "BUGS_FOUND"]))
    "/ws/a.py")) = [].
Proof.
  apply (non_text_answer_is_silent watched _ "/ws/a.py" 100 demo_code
           [ToolCall "bash"; TextResult "BUGS_FOUND"]);
    try reflexivity; try (by vm_compute).
Defined.

End Analyzer.

(** ** The scan loop, further *)

(** The events of a run that are about a file come from a call of
    [_check_file] on it in a world whose snapshot holds it. *)
Lemma touches_monitor_new (h : hunter) (ws : list world) (last_files : gset string)
    (p : string) (ev : event) :
  ev ∈ snd (monitor_from h ws last_files) → touches p ev = true →
  ∃ w, w ∈ ws ∧ p ∈ snapshot w ∧ ev ∈ check_events h w p.
Proof.
  revert last_files. induction ws as [|w ws IH]; intros last_files Hin Ht.
  { by apply elem_of_nil in Hin. }
  simpl in Hin. destruct (is_running w); [|by apply elem_of_nil in Hin].
  rewrite pass_eq in Hin.
  assert (Hscan : ev ∈ scan_events h w last_files ++ [EvSleep] →
                  ∃ w0, w0 ∈ w :: ws ∧ p ∈ snapshot w0 ∧ ev ∈ check_events h w0 p).
  { intros [Hs|Hs]%elem_of_app.
    - exists w. split; [apply elem_of_cons; by left|].
      destruct (touches_scan _ _ _ _ _ Hs Ht) as (H1 & _ & H2). done.
    - apply list_elem_of_singleton in Hs as ->. discriminate. }
  destruct (sleep_cancelled w); [by apply Hscan|].
  unfold after in Hin. simpl in Hin.
  apply elem_of_app in Hin as [Hin|Hin]; [by apply Hscan|].
  destruct (IH _ Hin Ht) as (w0 & Hw0 & Hev).
  exists w0. split; [apply elem_of_cons; by right|done].
Qed.

Lemma getsize_in_check (h : hunter) (w : world) (p : string) :
  EvGetSize p ∈ check_events h w p.
Proof.
  unfold check_events.
  destruct (getsize w p) as [size|e]; [|apply elem_of_cons; by left].
  destruct (50000 <? size); [apply elem_of_cons; by left|].
  destruct (read_text w p) as [code|e]; [|apply elem_of_cons; by left].
  destruct (Py.len code <? 50); apply elem_of_cons; by left.
Qed.

(** X7. [_check_file] never raises: what the file system, the client or
    the callback raise is caught by its handler. *)
Theorem check_file_never_raises (h : hunter) (w : world) (p : string) :
  outcome (_check_file h w p) = Ok tt.
Proof. by rewrite check_file_eq. Qed.

(** X8. A callback that raises is caught and logged by [_check_file], which
    returns normally; the call to the callback and the log of its failure
    are the last two events. *)
Theorem raising_callback_is_logged (h : hunter) (w : world) (p : string) (f : callback)
    (size : Z) (code report e : string) :
  on_bugs_found h = Some f →
  getsize w p = Returns size → size ≤ 50000 →
  read_text w p = Returns code → 50 ≤ Py.len code →
  tool_output (result_of p (generate w (prompt_of p code))) = report →
  classify report = BugsFound ∨ classify report = Unknown →
  f p report = Raises e →
  outcome (_check_file h w p) = Ok tt ∧
  ∃ before, trace (_check_file h w p)
            = before ++ [EvCallback p report;
                         EvLog ERROR ("Error checking file " +:+ p +:+ ": " +:+ e)].
Proof.
  intros Hcb Hsize Hle Hread Hlen Hout Hc Hraise.
  rewrite check_file_eq. split; [reflexivity|].
  unfold trace, check_events. cbn [snd].
  rewrite Hsize, Hread, !(proj2 (Z.ltb_ge _ _)) by lia.
  cbv zeta. rewrite Hout. unfold verdict_events, notify_events.
  rewrite Hcb, Hraise.
  destruct Hc as [-> | ->]; eexists; rewrite !app_assoc;
    match goal with
    | |- ?l ++ ?x :: ?y = _ => change (l ++ x :: y) with (l ++ [x] ++ y)
    end; rewrite app_assoc; reflexivity.
Qed.

Lemma raising_callback_witness :
  outcome (_check_file {| on_bugs_found := Some (λ _ _, Raises "handler broke") |}
             service_up "/ws/a.py") = Ok tt ∧
  ∃ before, trace (_check_file {| on_bugs_found := Some (λ _ _, Raises "handler broke") |}
                     service_up "/ws/a.py")
            = before ++ [EvCallback "/ws/a.py" "BUGS_FOUND: off-by-one at line 3";
                         EvLog ERROR ("Error checking file " +:+ "/ws/a.py" +:+ ": "
                                      +:+ "handler broke")].
Proof.
  apply (raising_callback_is_logged _ service_up "/ws/a.py" (λ _ _, Raises "handler broke")
           100 demo_code "BUGS_FOUND: off-by-one at line 3" "handler broke");
    try reflexivity; try (by vm_compute).
  by left.
Defined.

(** X9. In one pass the files whose size is asked are the new files of the
    snapshot, each of them once: what happens to one file (an error, a skip,
    a callback that raises) keeps no other new file from being checked. *)
Theorem pass_checks_each_new_file_once (h : hunter) (w : world) (last_files : gset string) :
  size_checks (snd (pass h w last_files)) = elements (snapshot w ∖ last_files).
Proof.
  rewrite pass_eq. cbn [snd]. rewrite size_checks_app, size_checks_scan.
  apply app_nil_r.
Qed.

(** X10. The snapshot holds the joined path of each file of each entry of
    the walk whose name ends in [.py], and nothing else; directories and
    other files are left out. When the walk raises, [_get_python_files]
    still returns, with the files of the entries yielded so far. *)
Theorem snapshot_holds_python_files (w : world) (p : string) :
  outcome (_get_python_files w) = Ok (snapshot w) ∧
  (p ∈ snapshot w ↔
   ∃ root dirs files file,
     (root, dirs, files) ∈ yields (os_walk w) ∧ file ∈ files ∧
     Py.endswith file ".py" = true ∧ p = Py.join root file).
Proof.
  split; [by rewrite get_python_files_eq|].
  unfold snapshot. rewrite elem_of_foldl_add_files. split.
  - intros [[]%not_elem_of_empty|H]. exact H.
  - intros H. by right.
Qed.

(** X11. Every path the loop asks the size of, opens, hands to the analyzer
    or reports to the callback ends in [.py]. *)
Theorem checked_paths_are_python_files (h : hunter) (ws : list world)
    (last_files : gset string) (p : string) (ev : event) :
  ev ∈ snd (monitor_from h ws last_files) → touches p ev = true →
  Py.endswith p ".py" = true.
Proof.
  intros Hin Ht.
  destruct (touches_monitor_new h ws last_files p ev Hin Ht) as (w & _ & Hp & _).
  unfold snapshot in Hp. apply elem_of_foldl_add_files in Hp
    as [[]%not_elem_of_empty|(root & dirs & files & file & _ & _ & Hpy & ->)].
  by apply PyMore.endswith_join.
Qed.

Lemma checked_paths_witness : Py.endswith "/ws/a.py" ".py" = true.
Proof.
  apply (checked_paths_are_python_files watched [service_up] ∅ "/ws/a.py"
           (EvGetSize "/ws/a.py")).
  - apply (list_elem_of_lookup_2 _ 1%nat). by vm_compute.
  - reflexivity.
Defined.

(** X12. The observed set is the last snapshot and no more: a file that
    is missing from one snapshot and back in the next is checked again,
    also when it had been seen before. *)
Theorem reappearing_file_is_checked_again (h : hunter) (w1 w2 : world) (ws : list world)
    (last_files : gset string) (p : string) :
  is_running w1 = true → sleep_cancelled w1 = false → is_running w2 = true →
  p ∉ snapshot w1 → p ∈ snapshot w2 →
  EvGetSize p ∈ snd (monitor_from h (w1 :: w2 :: ws) last_files).
Proof.
  intros Hrun1 Hsleep1 Hrun2 Hgone Hback.
  rewrite monitor_from_cons by done. unfold after. cbn [snd monitor_from].
  rewrite Hrun2, pass_eq. apply elem_of_app. right.
  assert (Hscan : EvGetSize p ∈ scan_events h w2 (snapshot w1)).
  { apply (scan_checks_new h w2 (snapshot w1) p); [done..|]. apply getsize_in_check. }
  destruct (sleep_cancelled w2); cbn [snd after fst];
    [apply elem_of_app; by left|].
  apply elem_of_app. left. apply elem_of_app. by left.
Qed.

Lemma reappearing_file_witness :
  EvGetSize "/ws/a.py"
  ∈ snd (monitor_from watched [walk_down; service_up] {[ "/ws/a.py" ]}).
Proof.
  apply (reappearing_file_is_checked_again watched walk_down service_up []
           {[ "/ws/a.py" ]} "/ws/a.py"); try reflexivity.
  apply not_elem_of_empty.
Defined.

(** One pass when the sleep may raise: as [pass] when it does not; when it
    does, the scan is done, the handler logs the exception, and its own
    sleep raises it out of the coroutine. *)
Lemma pass_x_eq (h : hunter) (w : world_x) (last_files : gset string) :
  pass_x h w last_files
  = match sleep_error w with
    | None => pass h (base w) last_files
    | Some msg =>
        (Escapes (Exception msg),
         scan_events h (base w) last_files
         ++ [EvSleep; EvLog ERROR ("Error in monitoring: " +:+ msg); EvSleep])
    end.
Proof.
  unfold pass_x, pass, on_error_x, sleep_x. rewrite scan_eq.
  destruct (sleep_error w) as [msg|]; [|reflexivity].
  unfold after. unfold_m. cbn [fst snd]. by rewrite <- app_assoc.
Qed.

(** X13. What the file system, the client and the callback raise (of class
    [Exception]) never ends the loop: as long as [asyncio.sleep] returns or
    is cancelled, the loop does what [monitor_from] says, and after any
    number of passes the coroutine has returned or is at the loop head. The
    coroutine ends by an exception only when [asyncio.sleep] itself raises:
    then the pass does its scan, the handler of the loop logs the exception,
    and the sleep of the handler raises it out of the coroutine. *)
Theorem loop_fails_only_at_its_sleep (h : hunter) (ws : list world_x)
    (last_files : gset string) :
  (Forall (λ w, sleep_error w = None) ws →
   monitor_x h ws last_files = monitor_from h (base <$> ws) last_files ∧
   (fst (monitor_x h ws last_files) = Returned ∨
    fst (monitor_x h ws last_files)
    = AtLoopHead (last_snapshot (base <$> ws) last_files))) ∧
  (∀ e, fst (monitor_x h ws last_files) = Failed e →
        ∃ w msg, w ∈ ws ∧ sleep_error w = Some msg ∧ e = Exception msg) ∧
  (∀ w ws' msg, ws = w :: ws' → is_running (base w) = true →
                sleep_error w = Some msg →
                monitor_x h ws last_files
                = (Failed (Exception msg),
                   scan_events h (base w) last_files
                   ++ [EvSleep; EvLog ERROR ("Error in monitoring: " +:+ msg); EvSleep])).
Proof.
  split; [|split].
  - intros Hnone.
    assert (Heq : monitor_x h ws last_files = monitor_from h (base <$> ws) last_files).
    { revert last_files. induction ws as [|w ws IH]; intros last_files; [reflexivity|].
      apply Forall_cons in Hnone as [Hw Hnone].
      rewrite fmap_cons. cbn [monitor_x monitor_from].
      rewrite pass_x_eq, Hw.
      destruct (is_running (base w)); [|reflexivity].
      destruct (pass h (base w) last_files) as [[last'| |e] t]; [|reflexivity..].
      by rewrite IH. }
    split; [exact Heq|]. rewrite Heq. clear.
    generalize (base <$> ws). clear. intros bs.
    revert last_files. induction bs as [|w bs IH]; intros last_files; [by right|].
    cbn [monitor_from]. destruct (is_running w); [|by left].
    rewrite pass_eq. destruct (sleep_cancelled w); [by left|].
    unfold after. cbn [fst]. apply IH.
  - revert last_files. induction ws as [|w ws IH]; intros last_files e; [discriminate|].
    cbn [monitor_x]. destruct (is_running (base w)); [|discriminate].
    rewrite pass_x_eq. destruct (sleep_error w) as [msg|] eqn:Hw.
    + cbn [fst]. intros [= <-]. exists w, msg. split; [apply elem_of_cons; by left|done].
    + rewrite pass_eq. destruct (sleep_cancelled (base w)); [discriminate|].
      unfold after. cbn [fst]. intros Hfail.
      destruct (IH _ _ Hfail) as (w' & msg & Hin & Hmsg & ->).
      exists w', msg. split; [apply elem_of_cons; by right|done].
  - intros w ws' msg -> Hrun Hmsg. cbn [monitor_x]. by rewrite Hrun, pass_x_eq, Hmsg.
Qed.


(** X15. The loop starts from an empty observed set: in its first pass
    every file of the snapshot is checked, the files checked by an earlier
    run of the loop included. *)
Theorem fresh_loop_checks_every_file (h : hunter) (w : world) (ws : list world) :
  is_running w = true →
  ∃ later, size_checks (snd (_monitor_loop h (w :: ws))) = elements (snapshot w) ++ later.
Proof.
  intros Hrun. unfold _monitor_loop. cbn [monitor_from]. rewrite Hrun, pass_eq.
  assert (Hfirst : size_checks (scan_events h w ∅ ++ [EvSleep]) = elements (snapshot w)).
  { rewrite size_checks_app, size_checks_scan, difference_empty_L. apply app_nil_r. }
  destruct (sleep_cancelled w).
  - exists []. cbn [snd]. by rewrite Hfirst, app_nil_r.
  - eexists. unfold after. cbn [snd]. by rewrite size_checks_app, Hfirst.
Qed.

Lemma fresh_loop_witness :
  ∃ later, size_checks (snd (_monitor_loop watched [service_up; service_up]))
           = elements (snapshot service_up) ++ later.
Proof. apply (fresh_loop_checks_every_file watched service_up [service_up]). reflexivity. Defined.

(** X16. With no callback registered, no run of the loop calls one. *)
Theorem no_callback_without_registration (h : hunter) (ws : list world)
    (last_files : gset string) :
  on_bugs_found h = None →
  callbacks (snd (monitor_from h ws last_files)) = [].
Proof.
  intros Hcb.
  destruct (callbacks (snd (monitor_from h ws last_files))) as [|[p report] l] eqn:Hl;
    [reflexivity|].
  assert (Hin : EvCallback p report ∈ snd (monitor_from h ws last_files)).
  { apply elem_of_callbacks. rewrite Hl. apply elem_of_cons. by left. }
  assert (Ht : touches p (EvCallback p report) = true)
    by (simpl; by apply bool_decide_eq_true).
  destruct (touches_monitor h ws last_files p _ Hin Ht) as (w & _ & Hev).
  assert (Hcall : (p, report) ∈ callbacks (trace (_check_file h w p))).
  { apply elem_of_callbacks. by rewrite check_file_eq. }
  rewrite callbacks_unregistered in Hcall by done. by apply elem_of_nil in Hcall.
Qed.

Lemma no_callback_witness :
  callbacks (snd (monitor_from {| on_bugs_found := None |} [service_up; service_down] ∅)) = [].
Proof. apply no_callback_without_registration. reflexivity. Defined.

(** X17. Every call to the callback, in any run of the loop, is for a file
    of a snapshot and carries a report classified [BugsFound] or [Unknown]. *)
Theorem callbacks_carry_suspect_reports (h : hunter) (ws : list world)
    (last_files : gset string) (p report : string) :
  (p, report) ∈ callbacks (snd (monitor_from h ws last_files)) →
  (classify report = BugsFound ∨ classify report = Unknown) ∧
  ∃ w, w ∈ ws ∧ p ∈ snapshot w.
Proof.
  intros Hin%elem_of_callbacks.
  assert (Ht : touches p (EvCallback p report) = true)
    by (simpl; by apply bool_decide_eq_true).
  destruct (touches_monitor_new h ws last_files p _ Hin Ht) as (w & Hw & Hp & Hev).
  destruct (callback_in_check h w p p report Hev) as [_ Hc].
  split; [exact Hc|]. by exists w.
Qed.

Lemma callbacks_carry_witness :
  (classify "BUGS_FOUND: off-by-one at line 3" = BugsFound ∨
   classify "BUGS_FOUND: off-by-one at line 3" = Unknown) ∧
  ∃ w, w ∈ [service_up] ∧ "/ws/a.py" ∈ snapshot w.
Proof.
  apply (callbacks_carry_suspect_reports watched [service_up] ∅ "/ws/a.py"
           "BUGS_FOUND: off-by-one at line 3").
  apply (list_elem_of_lookup_2 _ 0%nat). by vm_compute.
Defined.

(** X18. A file whose text has fewer than 50 characters is never handed to
    the analyzer, an empty file included. *)
Theorem short_file_never_analysed (h : hunter) (ws : list world)
    (last_files : gset string) (p : string) :
  Forall (λ w, ∃ code, read_text w p = Returns code ∧ Py.len code < 50) ws →
  ∀ ev, ev ∈ snd (monitor_from h ws last_files) → analysed p ev = false.
Proof.
  intros Hshort ev Hin. destruct (analysed p ev) eqn:Ha; [|reflexivity].
  destruct (touches_monitor h ws last_files p ev Hin (analysed_touches _ _ Ha))
    as (w & Hw & Hev).
  destruct (analysed_check h w p ev Hev Ha) as (size & code & _ & _ & Hread & Hlen).
  rewrite Forall_forall in Hshort.
  destruct (Hshort w Hw) as (code' & Hread' & Hlt).
  rewrite Hread in Hread'. injection Hread' as ->. lia.
Qed.

Lemma short_file_witness :
  (∃ code, read_text (demo_world demo_walk 0 (Returns "")
                        (Returns [TextResult "BUGS_FOUND"])) "/ws/a.py" = Returns code
           ∧ Py.len code < 50) ∧
  ∀ ev, ev ∈ snd (monitor_from watched
                    [demo_world demo_walk 0 (Returns "")
                       (Returns [TextResult "BUGS_FOUND"])] ∅) →
        analysed "/ws/a.py" ev = false.
Proof.
  assert (Hshort : ∃ code, read_text (demo_world demo_walk 0 (Returns "")
                             (Returns [TextResult "BUGS_FOUND"])) "/ws/a.py" = Returns code
                           ∧ Py.len code < 50)
    by (exists ""; split; [reflexivity|by vm_compute]).
  split; [exact Hshort|].
  apply (short_file_never_analysed watched _ ∅ "/ws/a.py").
  constructor; [exact Hshort|constructor].
Defined.

(** ** [start] and [stop], further *)

Module LifecycleMore.
Import Lifecycle LifecycleFacts.

(** The tasks created so far are the ranks below [created]. *)
Lemma task_below_created (ops : list op) (t : nat) :
  task (run ops) = Some t → (t < created (run ops))%nat.
Proof.
  revert t. induction ops as [|o ops IH] using rev_ind; intros t; [discriminate|].
  rewrite run_snoc. destruct o; simpl.
  - unfold start. destruct (running (run ops)); [apply IH|].
    simpl. intros [= <-]. lia.
  - apply IH.
Qed.

Lemma stop_stop (s : sched) : stop (stop s) = stop s.
Proof.
  unfold stop. simpl. f_equal.
  destruct (task s) as [t|]; [|reflexivity].
  apply set_eq. intros x. rewrite !elem_of_difference. tauto.
Qed.

(** X19. [stop] leaves the hunter not running with no task alive, whatever
    came before; called again, or called before any [start], it changes
    nothing. *)
Theorem stop_ends_the_task :
  (∀ ops, running (run (ops ++ [Stop])) = false ∧ alive (run (ops ++ [Stop])) = ∅) ∧
  (∀ ops, run (ops ++ [Stop; Stop]) = run (ops ++ [Stop])) ∧
  stop init = init.
Proof.
  split; [|split].
  - intros ops. pose proof (consistent_run (ops ++ [Stop])) as Hc.
    rewrite run_snoc in *. unfold consistent in Hc. simpl in *. done.
  - intros ops. change [Stop; Stop] with ([Stop] ++ [Stop]).
    rewrite app_assoc, !run_snoc. simpl. apply stop_stop.
  - reflexivity.
Qed.

(** X20. A [start] after a [stop] creates a task of its own: the hunter
    runs again, the new task is the one alive, and it is not the task of
    before. *)
Theorem restart_creates_a_new_task (ops : list op) (t : nat) :
  task (run ops) = Some t →
  running (run (ops ++ [Stop; Start])) = true ∧
  task (run (ops ++ [Stop; Start])) = Some (created (run ops)) ∧
  alive (run (ops ++ [Stop; Start])) = {[ created (run ops) ]} ∧
  t ≠ created (run ops).
Proof.
  intros Ht. pose proof (task_below_created ops t Ht) as Hlt.
  change [Stop; Start] with ([Stop] ++ [Start]).
  rewrite app_assoc, !run_snoc. simpl.
  pose proof (consistent_run (ops ++ [Stop])) as Hc.
  rewrite run_snoc in Hc. unfold consistent in Hc. simpl in Hc.
  unfold start. simpl. rewrite Hc. repeat split.
  - apply (left_id_L ∅ (∪)).
  - lia.
Qed.

Lemma restart_witness :
  running (run ([Start] ++ [Stop; Start])) = true ∧
  task (run ([Start] ++ [Stop; Start])) = Some (created (run [Start])) ∧
  alive (run ([Start] ++ [Stop; Start])) = {[ created (run [Start]) ]} ∧
  0%nat ≠ created (run [Start]).
Proof. apply (restart_creates_a_new_task [Start] 0%nat). reflexivity. Defined.

End LifecycleMore.

(** ** The console *)

Module ConsoleFacts.
Import Py PyFacts Console.

Lemma lower_char_space (c : ascii) : is_space (lower_char c) = is_space c.
Proof. destruct c as [[] [] [] [] [] [] [] []]; reflexivity. Qed.

Lemma lower_char_y (c : ascii) :
  Ascii.eqb (lower_char c) "y" = (Ascii.eqb c "y" || Ascii.eqb c "Y").
Proof. destruct c as [[] [] [] [] [] [] [] []]; reflexivity. Qed.

Lemma lstrip_lower (s : string) : lstrip (lower s) = lower (lstrip s).
Proof.
  induction s as [|c s IH]; [reflexivity|].
  simpl. rewrite lower_char_space. by destruct (is_space c).
Qed.

Lemma lstrip_blank (blanks s : string) :
  blank blanks = true → lstrip (blanks +:+ s) = lstrip s.
Proof.
  unfold blank. induction blanks as [|c blanks IH]; [reflexivity|].
  cbn [list_ascii_of_string forallb]. intros [Hc Hb]%andb_true_iff.
  rewrite app_cons. cbn [lstrip]. rewrite Hc. by apply IH.
Qed.

(** What [lstrip] takes off is blank, and what it leaves starts with a
    character that is not a white space. *)
Lemma lstrip_split (s : string) :
  ∃ blanks, blank blanks = true ∧ s = blanks +:+ lstrip s ∧
            match lstrip s with
            | EmptyString => True
            | String c _ => is_space c = false
            end.
Proof.
  induction s as [|c s (blanks & Hb & Hs & Hhead)].
  - exists "". by repeat split.
  - simpl. destruct (is_space c) eqn:Hc.
    + exists (String c blanks). repeat split; [|by rewrite app_cons, <- Hs|exact Hhead].
      unfold blank in *. simpl. by rewrite Hc.
    + exists "". repeat split. exact Hc.
Qed.

(** [rstrip] keeps the first character of a text that starts with a
    character that is not a white space. *)
Lemma rstrip_head (c : ascii) (s : string) :
  is_space c = false → ∃ kept, rstrip (String c s) = String c kept.
Proof.
  intros Hc. simpl. destruct (rstrip s); [rewrite Hc|]; eauto.
Qed.

Lemma startswith_y (s : string) :
  startswith s "y" = match s with
                     | EmptyString => false
                     | String c _ => Ascii.eqb c "y"
                     end.
Proof. destruct s as [|c s]; [reflexivity|]. simpl. by destruct (Ascii.eqb c "y"). Qed.

(** X21. [Confirm.ask] answers yes exactly when the first character of the
    typed line that is not a white space is [y] or [Y]; an empty or blank
    line is a no. *)
Theorem ask_reads_first_visible_character (prompt : string → string) (question : string) :
  ask prompt question = true ↔
  ∃ blanks c rest,
    prompt (question +:+ " [y/n] ") = blanks +:+ String c rest ∧
    blank blanks = true ∧ (c = "y"%char ∨ c = "Y"%char).
Proof.
  unfold ask, strip. rewrite lstrip_lower.
  set (typed := prompt (question +:+ " [y/n] ")).
  destruct (lstrip_split typed) as (blanks & Hb & Hs & Hhead).
  destruct (lstrip typed) as [|c rest] eqn:Hl.
  - simpl. split; [discriminate|].
    intros (blanks' & c' & rest' & Heq & Hb' & Hc').
    assert (Hne : lstrip typed = String c' rest').
    { rewrite Heq, lstrip_blank by done. simpl.
      by destruct Hc' as [-> | ->]. }
    congruence.
  - simpl lower.
    destruct (rstrip_head (lower_char c) (lower rest)) as (kept & ->).
    { by rewrite lower_char_space. }
    rewrite startswith_y, lower_char_y. split.
    + intros Hy. exists blanks, c, rest. split; [exact Hs|]. split; [exact Hb|].
      apply orb_true_iff in Hy as [Hy|Hy]; apply Ascii.eqb_eq in Hy; auto.
    + intros (blanks' & c' & rest' & Heq & Hb' & Hc').
      assert (Hne : lstrip typed = String c' rest').
      { rewrite Heq, lstrip_blank by done. simpl.
        by destruct Hc' as [-> | ->]. }
      rewrite Hl in Hne. injection Hne as -> ->.
      destruct Hc' as [-> | ->]; reflexivity.
Qed.

(** X22. With a positive [height] the display shows the last [height]
    lines of the log, or the whole log when it has no more lines than that:
    never more than [height] lines. *)
Theorem display_shows_last_lines (height : Z) (log_lines : list string) :
  0 < height →
  display_lines height log_lines
  = drop (length log_lines - Z.to_nat height) log_lines ∧
  Z.of_nat (length (display_lines height log_lines))
  = Z.min height (Z.of_nat (length log_lines)).
Proof.
  intros Hpos.
  assert (Heq : display_lines height log_lines
                = drop (length log_lines - Z.to_nat height) log_lines).
  { unfold display_lines, slice_from.
    destruct (height <? Z.of_nat (length log_lines)) eqn:Hlt.
    - apply Z.ltb_lt in Hlt. rewrite (proj2 (Z.ltb_lt _ _)) by lia.
      f_equal. lia.
    - apply Z.ltb_ge in Hlt.
      replace (length log_lines - Z.to_nat height)%nat with 0%nat by lia.
      reflexivity. }
  split; [exact Heq|]. rewrite Heq, length_drop. lia.
Qed.

Lemma display_shows_last_lines_witness :
  display_lines 2 ["a"; "b"; "c"] = drop (length ["a"; "b"; "c"] - Z.to_nat 2) ["a"; "b"; "c"] ∧
  Z.of_nat (length (display_lines 2 ["a"; "b"; "c"]))
  = Z.min 2 (Z.of_nat (length ["a"; "b"; "c"])).
Proof. apply (display_shows_last_lines 2 ["a"; "b"; "c"]). lia. Defined.

(** X23. A [height] of zero does not empty the display: the whole log is
    shown. A negative [height] shows the log without its first lines, as
    many as the height is below zero. *)
Theorem display_with_no_height (height : Z) (log_lines : list string) :
  height ≤ 0 →
  display_lines height log_lines = drop (Z.to_nat (- height)) log_lines.
Proof.
  intros Hneg. unfold display_lines, slice_from.
  destruct (height <? Z.of_nat (length log_lines)) eqn:Hlt.
  - rewrite (proj2 (Z.ltb_ge _ _)) by lia.
    destruct (Z.le_gt_cases (- height) (Z.of_nat (length log_lines))) as [Hle|Hgt].
    + f_equal. lia.
    + rewrite !drop_ge by lia. reflexivity.
  - apply Z.ltb_ge in Hlt. destruct log_lines; [by rewrite drop_nil|simpl in Hlt; lia].
Qed.

Lemma display_with_no_height_witness :
  display_lines 0 ["a"; "b"; "c"] = drop (Z.to_nat (- 0)) ["a"; "b"; "c"].
Proof. apply (display_with_no_height 0 ["a"; "b"; "c"]). lia. Defined.

End ConsoleFacts.

(** ** The web search tool *)

Module WebSearchFacts.
Import WebSearch.

Ltac unfold_w :=
  unfold wbind, wtry, wlog, wemit, wret, wraise in *.

Lemma wbind_ret_l {A B} (a : A) (k : A → W B) : wbind (wret a) k = k a.
Proof. unfold wbind, wret. by destruct (k a). Qed.

Lemma analyse_returns (e : env) (query results : string) :
  ∃ t, _analyse_with_gpt5 e query results = (Ok (analysis_of e query results), t) ∧
       requests t = [] ∧
       analyses t = match gpt5_client e with
                    | None => []
                    | Some _ => [analysis_prompt query results]
                    end.
Proof.
  unfold _analyse_with_gpt5, analysis_of.
  destruct (gpt5_client e) as [generate|]; [|eexists; by repeat split].
  destruct (generate _) as [[|[text|name] others]|msg];
    unfold_w; simpl; eexists; repeat split; reflexivity.
Qed.

Lemma google_search_returns (e : env) (query : string) :
  unset (getenv e "GOOGLE_API_KEY") || unset (getenv e "GOOGLE_SEARCH_ENGINE_ID") = false →
  ∃ t, _google_search e query = (Ok (found e query), t) ∧
       requests t = [search_url] ∧ analyses t = [].
Proof.
  intros Hset. unfold _google_search, found. rewrite Hset.
  destruct (http e _ _) as [msg|msg|data]; unfold_w; simpl; try by eauto.
  destruct (results_of data) as [msg|results]; simpl; by eauto.
Qed.

(** [run_impl] in closed form, once the credentials are set. *)
Lemma run_impl_searches (e : env) (tool_input : gmap string string) (query : string) :
  tool_input !! "query" = Some query →
  unset (getenv e "GOOGLE_API_KEY") || unset (getenv e "GOOGLE_SEARCH_ENGINE_ID") = false →
  ∃ t, run_impl e tool_input
       = (Ok {| tool_output :=
                  analysis_of e query
                    (join (Py.nl +:+ Py.nl) (result_text e <$> found e query));
                tool_result_message := "Searched for: " +:+ query |}, t) ∧
       requests t = [search_url] ∧
       analyses t = match gpt5_client e with
                    | None => []
                    | Some _ =>
                        [analysis_prompt query
                           (join (Py.nl +:+ Py.nl) (result_text e <$> found e query))]
                    end.
Proof.
  intros Hq Hset. unfold run_impl. rewrite Hq, wbind_ret_l.
  destruct (google_search_returns e query Hset) as (t1 & -> & Hreq1 & Han1).
  destruct (analyse_returns e query
              (join (Py.nl +:+ Py.nl) (result_text e <$> found e query)))
    as (t2 & Heq & Hreq2 & Han2).
  unfold wbind at 1. rewrite Heq. unfold_w. simpl.
  eexists. split; [reflexivity|].
  unfold requests, analyses in *. rewrite app_nil_r, !omap_app.
  rewrite Hreq1, Hreq2, Han1, Han2. by split.
Qed.

(** X24. Without both credentials the search fails as a whole: the tool
    returns the message of the missing credentials and makes no request
    and no analysis. The mock search its warning announces is not used. *)
Theorem missing_credentials_fail_the_search (e : env) (tool_input : gmap string string)
    (query : string) :
  tool_input !! "query" = Some query →
  unset (getenv e "GOOGLE_API_KEY") || unset (getenv e "GOOGLE_SEARCH_ENGINE_ID") = true →
  run_impl e tool_input
  = (Ok {| tool_output := "Error performing web search: Google API credentials not set";
           tool_result_message := "Search failed" |},
     [Log WARNING "Google API credentials not set, falling back to mock search";
      Log ERROR "Error in web search tool: Google API credentials not set"]).
Proof.
  intros Hq Hunset. unfold run_impl, _google_search. rewrite Hq, Hunset. reflexivity.
Qed.

Lemma missing_credentials_witness :
  run_impl (demo_env false (Data JNull)) {[ "query" := "rocq stdpp" ]}
  = (Ok {| tool_output := "Error performing web search: Google API credentials not set";
           tool_result_message := "Search failed" |},
     [Log WARNING "Google API credentials not set, falling back to mock search";
      Log ERROR "Error in web search tool: Google API credentials not set"]).
Proof.
  exact (missing_credentials_fail_the_search (demo_env false (Data JNull))
           {[ "query" := "rocq stdpp" ]} "rocq stdpp" eq_refl eq_refl).
Defined.

(** X25. On an input with a [query] entry the tool returns, whatever the
    environment, the request and the client do: with the analysis and the
    message of a search done, or with the message of a failed search. At
    most one request and one analysis are made. *)
Theorem web_search_returns (e : env) (tool_input : gmap string string) (query : string) :
  tool_input !! "query" = Some query →
  ∃ out,
    fst (run_impl e tool_input) = Ok out ∧
    (tool_result_message out = "Searched for: " +:+ query ∨
     tool_result_message out = "Search failed") ∧
    (length (requests (snd (run_impl e tool_input))) ≤ 1)%nat ∧
    (length (analyses (snd (run_impl e tool_input))) ≤ 1)%nat.
Proof.
  intros Hq.
  destruct (unset (getenv e "GOOGLE_API_KEY") || unset (getenv e "GOOGLE_SEARCH_ENGINE_ID"))
    eqn:Hcred.
  - unfold run_impl, _google_search. rewrite Hq, Hcred.
    eexists. split; [reflexivity|]. split; [by right|]. simpl. lia.
  - destruct (run_impl_searches e tool_input query Hq Hcred) as (t & -> & Hreq & Han).
    eexists. split; [reflexivity|]. split; [by left|]. cbn [snd].
    rewrite Hreq, Han. destruct (gpt5_client e); simpl; lia.
Qed.

Lemma web_search_returns_witness :
  ∃ out,
    fst (run_impl (demo_env true (RequestFailed "timed out")) {[ "query" := "rocq stdpp" ]})
    = Ok out ∧
    (tool_result_message out = "Searched for: " +:+ "rocq stdpp" ∨
     tool_result_message out = "Search failed") ∧
    (length (requests (snd (run_impl (demo_env true (RequestFailed "timed out"))
                              {[ "query" := "rocq stdpp" ]}))) ≤ 1)%nat ∧
    (length (analyses (snd (run_impl (demo_env true (RequestFailed "timed out"))
                              {[ "query" := "rocq stdpp" ]}))) ≤ 1)%nat.
Proof.
  exact (web_search_returns (demo_env true (RequestFailed "timed out"))
           {[ "query" := "rocq stdpp" ]} "rocq stdpp" eq_refl).
Defined.

(** X26. When the request fails, or its answer cannot be decoded or has
    not the shape the loop over its items needs, the search returns the
    three mock results for the query. *)
Theorem failed_request_falls_back_to_mock (e : env) (query : string) :
  unset (getenv e "GOOGLE_API_KEY") || unset (getenv e "GOOGLE_SEARCH_ENGINE_ID") = false →
  (∃ msg, http e search_url (params_of e query) = RequestFailed msg ∨
          http e search_url (params_of e query) = DecodingFailed msg ∨
          ∃ data, http e search_url (params_of e query) = Data data ∧
                  results_of data = inl msg) →
  fst (_google_search e query) = Ok (_mock_web_search e query) ∧
  length (_mock_web_search e query) = 3%nat ∧
  requests (snd (_google_search e query)) = [search_url].
Proof.
  intros Hset Hfail.
  destruct (google_search_returns e query Hset) as (t & -> & Hreq & _).
  cbn [fst snd]. split; [|by split].
  f_equal. unfold found.
  destruct Hfail as (msg & [-> | [-> | (data & -> & ->)]]); reflexivity.
Qed.

Lemma failed_request_witness :
  fst (_google_search (demo_env true (Data (JArr []))) "rocq stdpp")
  = Ok (_mock_web_search (demo_env true (Data (JArr []))) "rocq stdpp") ∧
  length (_mock_web_search (demo_env true (Data (JArr []))) "rocq stdpp") = 3%nat ∧
  requests (snd (_google_search (demo_env true (Data (JArr []))) "rocq stdpp"))
  = [search_url].
Proof.
  apply (failed_request_falls_back_to_mock (demo_env true (Data (JArr []))) "rocq stdpp").
  - reflexivity.
  - exists (no_attribute (JArr []) "get"). right. right. exists (JArr []). by split.
Defined.

Lemma results_of_objects (items : list (list (string * json))) :
  results_of_items (JObj <$> items) = inr (result_of_fields <$> items).
Proof.
  induction items as [|f items IH]; [reflexivity|].
  rewrite !fmap_cons. cbn [results_of_items result_of_item]. by rewrite IH.
Qed.

(** X27. When the answer is an object whose [items] is a list of objects,
    the search returns one result for each item, in order: its [title],
    its [link] as [url] and its [snippet], an empty string standing for a
    field the item has not. *)
Theorem items_become_results (e : env) (query : string) (fields : list (string * json))
    (items : list (list (string * json))) :
  unset (getenv e "GOOGLE_API_KEY") || unset (getenv e "GOOGLE_SEARCH_ENGINE_ID") = false →
  http e search_url (params_of e query) = Data (JObj fields) →
  assoc "items" fields = Some (JArr (JObj <$> items)) →
  fst (_google_search e query) = Ok (result_of_fields <$> items).
Proof.
  intros Hset Hhttp Hitems.
  destruct (google_search_returns e query Hset) as (t & -> & _).
  cbn [fst]. f_equal. unfold found. rewrite Hhttp.
  unfold results_of. rewrite Hitems. simpl. by rewrite results_of_objects.
Qed.

Lemma items_become_results_witness :
  fst (_google_search
         (demo_env true
            (Data (JObj [("kind", JStr "customsearch#search");
                         ("items", JArr (JObj <$> [[("title", JStr "stdpp");
                                                    ("link", JStr "https://gitlab.mpi-sws.org")];
                                                   []]))])))
         "rocq stdpp")
  = Ok (result_of_fields <$> [[("title", JStr "stdpp");
                                ("link", JStr "https://gitlab.mpi-sws.org")];
                               []]).
Proof.
  apply (items_become_results _ "rocq stdpp"
           [("kind", JStr "customsearch#search");
            ("items", JArr (JObj <$> [[("title", JStr "stdpp");
                                       ("link", JStr "https://gitlab.mpi-sws.org")];
                                      []]))]); reflexivity.
Defined.

(** X28. An answer that is an object without [items] is no failure: the
    search returns no result, the mock results are not used, and the
    analysis is asked about an empty text of results. *)
Theorem answer_without_items_is_empty (e : env) (tool_input : gmap string string)
    (query : string) (fields : list (string * json))
    (generate : string → ext (list content)) :
  tool_input !! "query" = Some query →
  unset (getenv e "GOOGLE_API_KEY") || unset (getenv e "GOOGLE_SEARCH_ENGINE_ID") = false →
  http e search_url (params_of e query) = Data (JObj fields) →
  assoc "items" fields = None →
  gpt5_client e = Some generate →
  fst (_google_search e query) = Ok [] ∧
  analyses (snd (run_impl e tool_input)) = [analysis_prompt query ""].
Proof.
  intros Hq Hset Hhttp Hitems Hclient.
  assert (Hfound : found e query = []).
  { unfold found. rewrite Hhttp. unfold results_of. by rewrite Hitems. }
  split.
  - destruct (google_search_returns e query Hset) as (t & -> & _).
    cbn [fst]. by rewrite Hfound.
  - destruct (run_impl_searches e tool_input query Hq Hset) as (t & -> & _ & Han).
    cbn [snd]. rewrite Han, Hclient, Hfound. reflexivity.
Qed.

Lemma answer_without_items_witness :
  fst (_google_search (demo_env true (Data (JObj []))) "rocq stdpp") = Ok [] ∧
  analyses (snd (run_impl (demo_env true (Data (JObj []))) {[ "query" := "rocq stdpp" ]}))
  = [analysis_prompt "rocq stdpp" ""].
Proof.
  exact (answer_without_items_is_empty (demo_env true (Data (JObj [])))
           {[ "query" := "rocq stdpp" ]} "rocq stdpp" []
           (λ _, Returns [TextResult "Use stdpp."]) eq_refl eq_refl eq_refl eq_refl eq_refl).
Defined.

(** X29. The analysis always returns a text: the answer of the client, or
    a fixed message when there is no client or the client returns an empty
    list, or the message of the exception raised by the client or by the
    reading of a first result that is no text. Without a client nothing is
    sent. *)
Theorem analysis_always_returns (e : env) (query results : string) :
  ∃ text,
    fst (_analyse_with_gpt5 e query results) = Ok text ∧
    (gpt5_client e = None →
     text = "GPT-4o analysis unavailable" ∧ snd (_analyse_with_gpt5 e query results) = []) ∧
    (∀ generate, gpt5_client e = Some generate →
       match generate (analysis_prompt query results) with
       | Raises msg => text = "Error analyzing results: " +:+ msg
       | Returns [] => text = "No analysis available"
       | Returns (TextResult answer :: _) => text = answer
       | Returns (ToolCall _ :: _) =>
           text = "Error analyzing results: 'ToolCall' object has no attribute 'text'"
       end).
Proof.
  unfold _analyse_with_gpt5.
  destruct (gpt5_client e) as [generate|] eqn:Hclient.
  - destruct (generate (analysis_prompt query results)) as [[|[answer|name] others]|msg] eqn:Hg;
      unfold_w; simpl; eexists; (split; [reflexivity|]); (split; [discriminate|]);
      intros g [= <-]; by rewrite Hg.
  - eexists. split; [reflexivity|]. split; [done|discriminate].
Qed.

Lemma replace_char_free (old new : ascii) (s : string) :
  Ascii.eqb new old = false → free_of old (replace_char old new s) = true.
Proof.
  intros Hne. unfold free_of. induction s as [|c s IH]; [reflexivity|].
  cbn [replace_char list_ascii_of_string forallb]. rewrite IH, andb_true_r.
  destruct (Ascii.eqb c old) eqn:Hc; [by rewrite Hne|by rewrite Hc].
Qed.

Lemma replace_char_length (old new : ascii) (s : string) :
  String.length (replace_char old new s) = String.length s.
Proof. induction s as [|c s IH]; [reflexivity|]. simpl. by rewrite IH. Qed.

Lemma replace_char_id (old new : ascii) (s : string) :
  free_of old s = true → replace_char old new s = s.
Proof.
  unfold free_of. induction s as [|c s IH]; [reflexivity|].
  cbn [list_ascii_of_string forallb replace_char].
  intros [Hc Hs]%andb_true_iff. apply negb_true_iff in Hc. by rewrite Hc, IH.
Qed.

(** [s.replace(old, new)] changes the characters equal to [old], and only
    them: position by position. *)
Lemma replace_char_get (old new : ascii) (s : string) (i : nat) :
  String.get i (replace_char old new s)
  = (λ c, if Ascii.eqb c old then new else c) <$> String.get i s.
Proof.
  revert i. induction s as [|c s IH]; intros i; [reflexivity|].
  destruct i as [|i]; [reflexivity|]. simpl. apply IH.
Qed.

(** X30. The addresses of the three mock results are built from the query
    and its hash. The first and the third are a fixed site followed by the
    query with every space replaced, by [-] and by [+]: as long as the
    query, equal to it at every position that holds no space, and free of
    spaces. The second is a fixed site followed by [hash(query) % 1000000],
    a number from 0 to 999999 whatever the hash is. A query without spaces
    is in the first and the third as it is. *)
Theorem mock_addresses (e : env) (query : string) :
  url <$> _mock_web_search e query
  = [JStr ("https://docs.example.com/" +:+ replace_char " " "-" query);
     JStr ("https://stackoverflow.com/questions/"
           +:+ pretty (hash e query `mod` 1000000));
     JStr ("https://github.com/search?q=" +:+ replace_char " " "+" query)] ∧
  0 ≤ hash e query `mod` 1000000 < 1000000 ∧
  (∀ new : ascii,
     String.length (replace_char " " new query) = String.length query ∧
     (∀ i, String.get i (replace_char " " new query)
           = (λ c, if Ascii.eqb c " " then new else c) <$> String.get i query) ∧
     (Ascii.eqb new " " = false → free_of " " (replace_char " " new query) = true) ∧
     (free_of " " query = true → replace_char " " new query = query)).
Proof.
  split; [reflexivity|]. split; [apply Z.mod_pos_bound; lia|].
  intros new. split; [apply replace_char_length|]. split; [apply replace_char_get|].
  split; [apply replace_char_free|apply replace_char_id].
Qed.

End WebSearchFacts.

(** An interval that [asyncio.sleep] rejects: the first pass checks and
    reports [a.py], then the coroutine ends by the exception of the sleep. *)
Example rejected_interval_ends_the_loop :
  fst (monitor_x watched
         [{| base := service_up;
             sleep_error := Some "'<=' not supported between instances of 'str' and 'int'" |};
          {| base := service_up; sleep_error := None |}] ∅)
  = Failed (Exception "'<=' not supported between instances of 'str' and 'int'").
Proof. by vm_compute. Qed.
